(** * create-bsv-app: the [bsv-app] scaffolding command

    A shallow embedding of [bin/bsv-app.js].  The script is a sequence of
    calls to external collaborators (git, npm, the prompt renderer, the
    filesystem); the embedding threads a [world] (filesystem, emitted events,
    number of prompts asked) through a small state-and-exit monad.  The
    collaborators themselves are not part of the repository: they are the
    fields of an [Env] record over which every definition is parametrised.
    The colours that chalk puts around a message are left out: an event of
    the console carries the text of the line. *)

From stdpp Require Import gmap strings list fin_maps.
From Stdlib Require Import ZArith Ascii String.

Open Scope string_scope.
Open Scope list_scope.

(** ** JavaScript strings

    Strings are byte strings; the few non-ASCII characters of the script's
    messages are carried as their UTF-8 bytes. *)

Definition dquote : string := String "034" EmptyString.
Definition newline : string := String "010" EmptyString.

(** [s.length > 0] *)
Definition nonempty (s : string) : bool :=
  match s with EmptyString => false | String _ _ => true end.

(** [s.includes(t)] *)
Fixpoint includes (t s : string) : bool :=
  String.prefix t s ||
  match s with
  | EmptyString => false
  | String _ r => includes t r
  end.

(** ** Node's POSIX [path] module

    [path.resolve] and [path.join] are Node built-ins.  They are modelled
    after Node's [lib/path.js] (posix variant): the character loop of
    [normalizeString] is expressed over the ['/']-separated segments. *)

Module path.

(** The segments of a string between ['/'] separators, as [s.split('/')]. *)
Fixpoint segments (s : string) : list string :=
  match s with
  | EmptyString => [EmptyString]
  | String c r =>
      if Ascii.eqb c "/" then EmptyString :: segments r
      else match segments r with
           | [] => [String c EmptyString]
           | seg :: rest => String c seg :: rest
           end
  end.

(** [normalizeString]: [res] is the stack of kept segments, last one
    first.  Empty and ["."] segments are dropped; [".."] pops the last kept
    segment, and is kept itself only above the root of a relative path. *)
Fixpoint normalizeSegs (allowAboveRoot : bool)
    (res : list string) (segs : list string) : list string :=
  match segs with
  | [] => rev res
  | seg :: rest =>
      if (seg =? "") || (seg =? ".") then normalizeSegs allowAboveRoot res rest
      else if seg =? ".." then
        match res with
        | last :: res' =>
            if last =? ".." then
              normalizeSegs allowAboveRoot
                (if allowAboveRoot then ".." :: res else res) rest
            else normalizeSegs allowAboveRoot res' rest
        | [] =>
            normalizeSegs allowAboveRoot
              (if allowAboveRoot then [".."] else []) rest
        end
      else normalizeSegs allowAboveRoot (seg :: res) rest
  end.

Definition normalizeString (p : string) (allowAboveRoot : bool) : string :=
  String.concat "/" (normalizeSegs allowAboveRoot [] (segments p)).

Definition isAbsolute (p : string) : bool := String.prefix "/" p.

Fixpoint endsWithSlash (p : string) : bool :=
  match p with
  | EmptyString => false
  | String c EmptyString => Ascii.eqb c "/"
  | String _ r => endsWithSlash r
  end.

(** [path.normalize(p)] *)
Definition normalize (p : string) : string :=
  if negb (nonempty p) then "."
  else
    let absolute := isAbsolute p in
    let trailingSeparator := endsWithSlash p in
    let q := normalizeString p (negb absolute) in
    if negb (nonempty q) then
      if absolute then "/" else if trailingSeparator then "./" else "."
    else
      let q := if trailingSeparator then q +:+ "/" else q in
      if absolute then "/" +:+ q else q.

(** [path.join(...args)]: the non-empty arguments joined by ['/'], then
    normalised. *)
Definition join (args : list string) : string :=
  match filter (fun a => nonempty a = true) args with
  | [] => "."
  | joined => normalize (String.concat "/" joined)
  end.

(** One turn of the right-to-left loop of [path.resolve]. *)
Definition resolve_step (st : string * bool) (p : string) : string * bool :=
  let '(resolvedPath, resolvedAbsolute) := st in
  if resolvedAbsolute then st
  else if negb (nonempty p) then st
  else (p +:+ "/" +:+ resolvedPath, isAbsolute p).

(** [path.resolve(...args)], where [cwd] is what [process.cwd()] returns:
    the arguments are taken from the right until an absolute one is met,
    the working directory being the last resort. *)
Definition resolve (cwd : string) (args : list string) : string :=
  let '(resolvedPath, resolvedAbsolute) :=
    fold_left resolve_step (rev args ++ [cwd]) ("", false) in
  let resolvedPath := normalizeString resolvedPath (negb resolvedAbsolute) in
  if resolvedAbsolute then "/" +:+ resolvedPath
  else if nonempty resolvedPath then resolvedPath else ".".

(** [p] is [root] itself or a path below it. *)
Definition lies_under (root p : string) : bool :=
  (p =? root) ||
  String.prefix (if root =? "/" then "/" else root +:+ "/") p.

(** What [process.cwd()] returns: an absolute path that resolving leaves
    as it is (no empty, ["."] or [".."] segment, no trailing slash). *)
Definition is_cwd (cwd : string) : Prop :=
  isAbsolute cwd = true /\ resolve cwd [] = cwd.

End path.

(** ** JSON values and [JSON.stringify]

    A number is held as the text [JSON.stringify] prints for it, so that
    serialisation stays exact without a model of doubles.  The members of an
    object are kept in the order the runtime enumerates them. *)

#[warnings="-register-all"]
Inductive json : Type :=
| JNull
| JBool (b : bool)
| JNum (text : string)
| JStr (s : string)
| JArr (items : list json)
| JObj (props : list (string * json)).

Module JSON.

Definition hex_digit (n : nat) : ascii :=
  nth n (list_ascii_of_string "0123456789abcdef") "0"%char.

(** The escape of one character inside a JSON string literal. *)
Definition escape (c : ascii) : string :=
  let n := nat_of_ascii c in
  if Nat.eqb n 34 then "\" +:+ dquote
  else if Nat.eqb n 92 then "\\"
  else if Nat.eqb n 8 then "\b"
  else if Nat.eqb n 12 then "\f"
  else if Nat.eqb n 10 then "\n"
  else if Nat.eqb n 13 then "\r"
  else if Nat.eqb n 9 then "\t"
  else if Nat.ltb n 32 then
    "\u00" +:+ String (hex_digit (n / 16)) (String (hex_digit (n mod 16)) EmptyString)
  else String c EmptyString.

Fixpoint escape_all (s : string) : string :=
  match s with
  | EmptyString => EmptyString
  | String c r => escape c +:+ escape_all r
  end.

Definition quote (s : string) : string := dquote +:+ escape_all s +:+ dquote.

(** [SerializeJSONProperty] with no replacer: [gap] is the indentation
    unit, [indent] the current indentation. *)
Fixpoint serialize (gap indent : string) (v : json) : string :=
  match v with
  | JNull => "null"
  | JBool true => "true"
  | JBool false => "false"
  | JNum text => text
  | JStr s => quote s
  | JArr items =>
      let stepback := indent in
      let indent := indent +:+ gap in
      let partial := map (serialize gap indent) items in
      match partial with
      | [] => "[]"
      | _ =>
          if nonempty gap then
            "[" +:+ newline +:+ indent
              +:+ String.concat ("," +:+ newline +:+ indent) partial
              +:+ newline +:+ stepback +:+ "]"
          else "[" +:+ String.concat "," partial +:+ "]"
      end
  | JObj props =>
      let stepback := indent in
      let indent := indent +:+ gap in
      let partial :=
        map (fun kv : string * json =>
               let (k, x) := kv in
               quote k +:+ (if nonempty gap then ": " else ":")
                 +:+ serialize gap indent x) props in
      match partial with
      | [] => "{}"
      | _ =>
          if nonempty gap then
            "{" +:+ newline +:+ indent
              +:+ String.concat ("," +:+ newline +:+ indent) partial
              +:+ newline +:+ stepback +:+ "}"
          else "{" +:+ String.concat "," partial +:+ "}"
      end
  end.

Fixpoint spaces (n : nat) : string :=
  match n with O => EmptyString | S k => String " " (spaces k) end.

(** [JSON.stringify(v, null, n)] for a number of spaces [n] (at most ten
    are used). *)
Definition stringify (v : json) (n : nat) : string :=
  serialize (spaces (Nat.min n 10)) "" v.

End JSON.

(** ** JavaScript objects used as ordered maps

    An object literal or a parsed JSON object: its own properties in
    enumeration order.  [get] is [o[k]] ([None] for [undefined]); [set] is
    [o[k] = v], which keeps the place of a property that exists and appends
    a new one (the order of non-index string keys). *)

Module Obj.

Definition keys {A} (o : list (string * A)) : list string := map fst o.

Fixpoint get {A} (o : list (string * A)) (k : string) : option A :=
  match o with
  | [] => None
  | (k', v) :: rest => if k' =? k then Some v else get rest k
  end.

Fixpoint set {A} (o : list (string * A)) (k : string) (v : A) : list (string * A) :=
  match o with
  | [] => [(k, v)]
  | (k', v') :: rest =>
      if k' =? k then (k, v) :: rest else (k', v') :: set rest k v
  end.

End Obj.

(** ** The world the script runs in *)

(** A filesystem entry: a directory, or a file with its text. *)
Inductive node : Type :=
| Dir
| File (text : string).

(** A JavaScript [Error] as the script inspects it. *)
Record error : Type := mkError { isTtyError : bool; message : string }.

Definition Error (msg : string) : error :=
  {| isTtyError := false; message := msg |}.

Inductive channel : Type := Log | Warn | Err.

(** What the script does to the outside, in the order it does it. *)
Inductive event : Type :=
| Console (ch : channel) (text : string)
| ExecSync (command : string) (cwd : option string)
| GitClone (url : option string) (dir : string)
| GitInit (dir : string)
| Prompt (name : string)
| RemoveSync (p : string)
| WriteFile (p : string) (text : string).

Record world : Type := mkWorld {
  fs : gmap string node;
  trace : list event;
  asked : nat
}.

Definition set_fs (f : gmap string node) (w : world) : world :=
  {| fs := f; trace := trace w; asked := asked w |}.

Definition add_event (e : event) (w : world) : world :=
  {| fs := fs w; trace := trace w ++ [e]; asked := asked w |}.

Definition next_prompt (w : world) : world :=
  {| fs := fs w; trace := trace w; asked := S (asked w) |}.

(** The result of an external tool: the filesystem it leaves, and the error
    it raised if it failed. *)
Record result : Type := mkResult {
  after : gmap string node;
  failure : option error
}.

(** What the prompt renderer comes back with. *)
Inductive reply : Type :=
| Answer (s : string)
| Reject (e : error)
| Sigint.

(** The external collaborators. *)
Record Env : Type := mkEnv {
  (** [process.cwd()] *)
  process_cwd : string;
  (** [figlet.textSync('BSV', { horizontalLayout: 'full' })] *)
  figlet_BSV : string;
  (** [child_process.execSync(command, { cwd })] *)
  run_command : string -> option string -> gmap string node -> result;
  (** [simpleGit().clone(url, dir)] *)
  run_clone : option string -> string -> gmap string node -> result;
  (** [simpleGit(dir).init()] *)
  run_init : string -> gmap string node -> result;
  (** The JSON parser behind [fs.readJsonSync]: the value, or the message
      of the [SyntaxError]. *)
  JSON_parse : string -> json + string;
  (** The user in front of the [n]-th prompt of the run. *)
  user : nat -> reply;
  (** [util.inspect(error)], as the console prints an [Error] object: its
      name, its message and its stack trace. *)
  inspect_error : error -> string;
  (** [util.format(fmt, arg)] for a format that holds a ['%']: what the
      specifiers of [fmt] make of the string [arg]. *)
  format_specifiers : string -> string -> string
}.

(** ** The monad of the script: state, [process.exit] and exceptions *)

Inductive outcome (A : Type) : Type :=
| Return (a : A)
| Exit (code : Z)
| Throw (e : error).
Arguments Return {A} a.
Arguments Exit {A} code.
Arguments Throw {A} e.

Definition M (A : Type) : Type := world -> outcome A * world.

Definition ret {A} (a : A) : M A := fun w => (Return a, w).

Definition bind {A B} (m : M A) (k : A -> M B) : M B := fun w =>
  match m w with
  | (Return a, w') => k a w'
  | (Exit code, w') => (Exit code, w')
  | (Throw e, w') => (Throw e, w')
  end.

Declare Scope js_scope.
Delimit Scope js_scope with js.
Notation "x <- m ;; k" := (bind m (fun x => k))
  (at level 100, m at next level, right associativity) : js_scope.
Notation "m ;; k" := (bind m (fun _ => k))
  (at level 100, right associativity) : js_scope.
Open Scope js_scope.

(** [process.exit(code)]: nothing after it runs, no handler sees it. *)
Definition process_exit {A} (code : Z) : M A := fun w => (Exit code, w).

Definition throw {A} (e : error) : M A := fun w => (Throw e, w).

(** [try { body } catch (error) { handler }] *)
Definition try_catch {A} (body : M A) (handler : error -> M A) : M A := fun w =>
  match body w with
  | (Throw e, w') => handler e w'
  | r => r
  end.

Definition emit (e : event) : M unit := fun w => (Return tt, add_event e w).

Definition console_log (text : string) : M unit := emit (Console Log text).
Definition console_warn (text : string) : M unit := emit (Console Warn text).
Definition console_error (text : string) : M unit := emit (Console Err text).

(** An external tool is recorded, then run on the filesystem. *)
Definition external (e : event) (tool : gmap string node -> result) : M unit := fun w =>
  let w1 := add_event e w in
  let r := tool (fs w1) in
  match failure r with
  | None => (Return tt, set_fs (after r) w1)
  | Some err => (Throw err, set_fs (after r) w1)
  end.

(** The exit status the operating system sees. *)
Definition exit_status {A} (o : outcome A) : Z :=
  match o with
  | Return _ => 0
  | Exit code => code
  | Throw _ => 1
  end.

(** ** [bin/bsv-app.js] *)

(** What [program.opts()] holds once commander has read the arguments; a
    flag that was not given is falsy. *)
Record options : Type := mkOptions {
  skipInstall : bool;
  gitInit : bool;
  yes : bool
}.

(** The three variables [template], [projectName] and [authorName] that the
    interaction fills in. *)
Record request : Type := mkRequest {
  template : string;
  projectName : string;
  authorName : string
}.

Inductive qtype : Type := list_question | input_question.

(** A question handed to [inquirer.prompt].  [validate] answers [true] or
    the complaint to show. *)
Record question : Type := mkQuestion {
  qtype_of : qtype;
  qname : string;
  qmessage : string;
  choices : list string;
  qdefault : option string;
  validate : option (string -> bool + string)
}.

(** The template registry of the script. *)
Definition templates : list (string * string) :=
  [("Meter - A feature-packed starting point", "https://github.com/p2ppsr/meter.git")].

(** [`${x}`] for a value that may be [undefined]. *)
Definition show (x : option string) : string :=
  match x with Some s => s | None => "undefined" end.

(** The [validate] function of the project-name question. *)
Definition validate_projectName (input : string) : bool + string :=
  if nonempty input then inl true else inr "Project name cannot be empty.".

(** The filesystem without [p] and everything below it. *)
Definition remove_tree (p : string) (f : gmap string node) : gmap string node :=
  filter (fun kv : string * node => path.lies_under p kv.1 = false) f.

Section Script.

Variable E : Env.

(** *** Primitives over the collaborators *)

Definition existsSync (p : string) : M bool := fun w =>
  (Return (match fs w !! p with Some _ => true | None => false end), w).

(** [fs.removeSync(p)]: [p] and everything below it.  The removal and
    the write below are taken to succeed. *)
Definition removeSync (p : string) : M unit := fun w =>
  let w1 := add_event (RemoveSync p) w in
  (Return tt, set_fs (remove_tree p (fs w1)) w1).

(** [fs.readJsonSync(p)]: jsonfile puts the path in front of the message
    of whatever the read or the parse throws. *)
Definition readJsonSync (p : string) : M json := fun w =>
  match fs w !! p with
  | None =>
      (Throw (Error (p +:+ ": ENOENT: no such file or directory, open '" +:+ p +:+ "'")), w)
  | Some Dir =>
      (Throw (Error (p +:+ ": EISDIR: illegal operation on a directory, read")), w)
  | Some (File text) =>
      match JSON_parse E text with
      | inl v => (Return v, w)
      | inr msg => (Throw (Error (p +:+ ": " +:+ msg)), w)
      end
  end.

(** [fs.writeJsonSync(p, v, { spaces })]: the serialisation followed by
    an end of line. *)
Definition writeJsonSync (p : string) (v : json) (spaces : nat) : M unit := fun w =>
  let text := JSON.stringify v spaces +:+ newline in
  let w1 := add_event (WriteFile p text) w in
  (Return tt, set_fs (<[p := File text]> (fs w1)) w1).

(** [execSync(command, { cwd })] *)
Definition execSync (command : string) (cwd : option string) : M unit :=
  external (ExecSync command cwd) (run_command E command cwd).

Definition git_clone (url : option string) (dir : string) : M unit :=
  external (GitClone url dir) (run_clone E url dir).

Definition git_init (dir : string) : M unit :=
  external (GitInit dir) (run_init E dir).

(** The handler installed by [process.on('SIGINT', ...)]. *)
Definition on_SIGINT {A} : M A :=
  console_log (newline +:+ "🚪 Exiting... Goodbye!");;
  process_exit 0.

(** [inquirer.prompt([q])], giving the answer to the one question. *)
Definition inquirer_prompt (q : question) : M string := fun w =>
  let w1 := next_prompt (add_event (Prompt (qname q)) w) in
  match user E (asked w) with
  | Answer s => (Return s, w1)
  | Reject e => (Throw e, w1)
  | Sigint => on_SIGINT w1
  end.

(** [target[key] = v] on a parsed JSON value (sloppy mode): an object
    takes the property; [null] raises a [TypeError]; on an array the
    property is not an element and on a primitive the assignment is
    dropped, so neither changes what is serialised. *)
Definition assign (target : json) (key : string) (v : json) : M json :=
  match target with
  | JObj props => ret (JObj (Obj.set props key v))
  | JNull =>
      throw (Error ("Cannot set properties of null (setting '" +:+ key +:+ "')"))
  | _ => ret target
  end.

(** The line [console.error(fmt, arg)] prints for a string [arg]:
    [util.format] puts a space between the two, unless [fmt] holds a ['%'],
    in which case its specifiers decide what becomes of [arg]. *)
Definition format2 (fmt arg : string) : string :=
  if includes "%" fmt then format_specifiers E fmt arg
  else fmt +:+ " " +:+ arg.

(** *** The functions of the script *)

Definition checkGitInstalled : M unit :=
  try_catch
    (execSync "git --version" None)
    (fun error =>
       console_error "Git is not installed or not available in PATH. Please install Git and try again.";;
       process_exit 1).

Definition checkNpmInstalled : M unit :=
  try_catch
    (execSync "npm --version" None)
    (fun error =>
       console_error "npm is not installed or not available in PATH. Please install Node.js and try again.";;
       process_exit 1).

Definition cloneTemplate (templateUrl : option string) (projectDir : string) : M unit :=
  try_catch
    (console_log ("Cloning repository from " +:+ show templateUrl +:+ "...");;
     git_clone templateUrl projectDir;;
     console_log ("Repository cloned to " +:+ projectDir))
    (fun error =>
       console_error ("Error cloning repository: " +:+ message error);;
       process_exit 1).

Definition installInDir (dir : string) : M unit :=
  let packageJsonPath := path.join [dir; "package.json"] in
  present <- existsSync packageJsonPath;;
  if present then
    try_catch
      (console_log ("Installing dependencies in " +:+ dir +:+ "...");;
       execSync "npm install" (Some dir);;
       console_log ("Dependencies installed successfully in " +:+ dir +:+ "."))
      (fun error =>
         console_error
           (format2 ("Error installing dependencies in " +:+ dir +:+ ":") (message error));;
         process_exit 1)
  else
    console_warn ("No package.json found in " +:+ dir +:+ ". Skipping dependency installation.").

Definition installDependencies (projectDir : string) : M unit :=
  installInDir projectDir;;
  let frontendDir := path.join [projectDir; "frontend"] in
  let backendDir := path.join [projectDir; "backend"] in
  frontend <- existsSync frontendDir;;
  (if frontend then installInDir frontendDir else ret tt);;
  backend <- existsSync backendDir;;
  (if backend then installInDir backendDir else ret tt).

(** The [for ... of Object.keys(customizations)] loop. *)
Fixpoint assign_all (packageJson : json) (customizations : list (string * json)) : M json :=
  match customizations with
  | [] => ret packageJson
  | (key, v) :: rest =>
      packageJson' <- assign packageJson key v;;
      assign_all packageJson' rest
  end.

Definition customizePackageJson (projectDir : string)
    (customizations : list (string * json)) : M unit :=
  let packageJsonPath := path.join [projectDir; "package.json"] in
  present <- existsSync packageJsonPath;;
  if present then
    packageJson <- readJsonSync packageJsonPath;;
    packageJson <- assign_all packageJson customizations;;
    writeJsonSync packageJsonPath packageJson 2;;
    console_log ("Modified package.json: " +:+ JSON.stringify packageJson 2)
  else ret tt.

(** The object built by [const customizations = {}] and the two guarded
    assignments (an empty string is falsy). *)
Definition customizations_of (projectName authorName : string) : list (string * json) :=
  let customizations := [] in
  let customizations :=
    if nonempty projectName then Obj.set customizations "name" (JStr projectName)
    else customizations in
  if nonempty authorName then Obj.set customizations "author" (JStr authorName)
  else customizations.

(** Lines 129-167, the [try] block: the variables are filled in from the
    defaults or from three prompts. *)
Definition interaction_try (opts : options) : M request :=
  if yes opts then
    ret {| template := "meter"; projectName := "bsv-app"; authorName := "" |}
  else
    templateChoice <- inquirer_prompt
      {| qtype_of := list_question; qname := "templateChoice";
         qmessage := "Which template would you like to use?";
         choices := Obj.keys templates; qdefault := None; validate := None |};;
    projectNameInput <- inquirer_prompt
      {| qtype_of := input_question; qname := "projectNameInput";
         qmessage := "Enter a name for your project:";
         choices := []; qdefault := Some "bsv-app";
         validate := Some validate_projectName |};;
    authorNameInput <- inquirer_prompt
      {| qtype_of := input_question; qname := "authorNameInput";
         qmessage := "Enter the author name:";
         choices := []; qdefault := Some ""; validate := None |};;
    ret {| template := templateChoice; projectName := projectNameInput;
           authorName := authorNameInput |}.

(** Lines 168-177, the [catch] block: whatever the prompts throw ends the
    process with 0. *)
Definition interaction_catch (error : error) : M request :=
  (if isTtyError error then
     console_error "❌ Prompt could not be rendered in this environment."
   else if includes "User force closed the prompt" (message error) then
     console_log (newline +:+ "🚪 Goodbye!")
   else
     console_error ("❌ An unexpected error occurred: " +:+ message error));;
  process_exit 0.

(** Lines 126-177. *)
Definition interaction (opts : options) : M request :=
  try_catch (interaction_try opts) interaction_catch.

(** The target directory of line 179. *)
Definition projectDir_of (projectName : string) : string :=
  path.resolve (process_cwd E) [process_cwd E; projectName].

(** Lines 193-197. *)
Definition customize (projectDir : string) (req : request) : M unit :=
  customizePackageJson projectDir
    (customizations_of (projectName req) (authorName req)).

(** Lines 179-216: from the filled-in variables to the finished project. *)
Definition materialize (opts : options) (req : request) : M unit :=
  let projectDir := projectDir_of (projectName req) in
  taken <- existsSync projectDir;;
  (if taken then
     console_error ("❌ Directory " +:+ dquote +:+ projectName req +:+ dquote +:+ " already exists.");;
     process_exit 1
   else ret tt);;
  cloneTemplate (Obj.get templates (template req)) projectDir;;
  let gitDir := path.join [projectDir; ".git"] in
  inherited <- existsSync gitDir;;
  (if inherited then removeSync gitDir else ret tt);;
  customize projectDir req;;
  (if negb (skipInstall opts) then installDependencies projectDir else ret tt);;
  (if gitInit opts then
     console_log "Initializing new git repository...";;
     try_catch
       (git_init projectDir)
       (fun error =>
          console_error ("Error initializing git repository: " +:+ message error);;
          process_exit 1)
   else ret tt);;
  console_log "✅ All done! Start coding with:";;
  console_log ("cd " +:+ projectName req);;
  console_log "npm start".

(** Lines 108-116: banner and preflight. *)
Definition preflight : M unit :=
  console_log (figlet_BSV E);;
  console_log "Start building your BSV-powered app with ease! 🚀";;
  checkGitInstalled;;
  checkNpmInstalled.

(** Lines 108-177: everything before the target check. *)
Definition preamble (opts : options) : M request :=
  preflight;;
  interaction opts.

(** [run()] *)
Definition run (opts : options) : M unit :=
  req <- preamble opts;;
  materialize opts req.

(** [run().catch(...)]: the handler of last resort, which hands the error
    object itself to the console. *)
Definition main (opts : options) : M unit :=
  try_catch
    (run opts)
    (fun error =>
       console_error ("❌ An error occurred: " +:+ inspect_error E error);;
       process_exit 1).

End Script.

(** ** A concrete environment

    A working directory [/home/dev], tools that succeed, a template
    repository with a root manifest, a [frontend] with a manifest and a
    [backend] without one, and a user whose replies are given in a list. *)

Module Demo.

Definition manifest_text : string :=
  "{" +:+ dquote +:+ "name" +:+ dquote +:+ ":" +:+ dquote +:+ "x" +:+ dquote +:+ ","
      +:+ dquote +:+ "version" +:+ dquote +:+ ":" +:+ dquote +:+ "1.0.0" +:+ dquote +:+ "}".

Definition manifest : json :=
  JObj [("name", JStr "x"); ("version", JStr "1.0.0")].

(** A parser that knows the one document of the demonstration. *)
Definition parse (text : string) : json + string :=
  if text =? manifest_text then inl manifest
  else inr "Unexpected token in JSON at position 0".

Definition ok (f : gmap string node) : result := {| after := f; failure := None |}.

Definition command (c : string) (cwd : option string) (f : gmap string node) : result :=
  match cwd with
  | Some dir =>
      if c =? "npm install" then ok (<[dir +:+ "/node_modules" := Dir]> f) else ok f
  | None => ok f
  end.

(** The tree a clone of the template leaves in [dir], its manifest holding
    [text]. *)
Definition clone_tree (text : string) (dir : string) (f : gmap string node)
    : gmap string node :=
  <[dir := Dir]>
    (<[dir +:+ "/.git" := Dir]>
       (<[dir +:+ "/.git/HEAD" := File "ref: refs/heads/main"]>
          (<[dir +:+ "/package.json" := File text]>
             (<[dir +:+ "/frontend" := Dir]>
                (<[dir +:+ "/frontend/package.json" := File text]>
                   (<[dir +:+ "/backend" := Dir]> f)))))).

Definition clone (text : string) (url : option string) (dir : string)
    (f : gmap string node) : result :=
  match url with
  | Some _ => ok (clone_tree text dir f)
  | None => {| after := f; failure := Some (Error "git.clone() requires a string 'repoPath'") |}
  end.

Definition init (dir : string) (f : gmap string node) : result :=
  ok (<[dir +:+ "/.git" := Dir]> f).

Definition replies (l : list reply) (n : nat) : reply :=
  nth n l (Answer "").

(** How the console shows an error: name and message, then a stack line. *)
Definition inspect (e : error) : string :=
  "Error: " +:+ message e +:+ newline +:+ "    at run (bin/bsv-app.js)".

(** The first [%s] of [fmt] replaced by [arg]; [None] when there is none. *)
Fixpoint put_s (fmt arg : string) : option string :=
  if String.prefix "%s" fmt then Some (arg +:+ String.substring 2 (String.length fmt - 2) fmt)
  else match fmt with
       | EmptyString => None
       | String c r => option_map (String c) (put_s r arg)
       end.

Definition specifiers (fmt arg : string) : string :=
  match put_s fmt arg with
  | Some line => line
  | None => fmt +:+ " " +:+ arg
  end.

Definition env (text : string) (l : list reply) : Env :=
  {| process_cwd := "/home/dev";
     figlet_BSV := "BSV";
     run_command := command;
     run_clone := clone text;
     run_init := init;
     JSON_parse := parse;
     user := replies l;
     inspect_error := inspect;
     format_specifiers := specifiers |}.

Definition disk : gmap string node :=
  <["/home" := Dir]> (<["/home/dev" := Dir]> ∅).

(** A project already sits in [/home/dev/foo], its manifest holding
    [text]. *)
Definition project (text : string) : world :=
  {| fs := clone_tree text "/home/dev/foo" disk; trace := []; asked := 0 |}.

Definition start : world := {| fs := disk; trace := []; asked := 0 |}.

Definition meter : string := "Meter - A feature-packed starting point".

(** A user who picks the template and then closes the prompt. *)
Definition aborting : Env :=
  env manifest_text
    [Answer meter; Reject (Error "User force closed the prompt with 0 null")].

(** A user who answers the three prompts; the template's manifest holds
    [text]. *)
Definition answering (text : string) : Env :=
  env text [Answer meter; Answer "foo"; Answer "bar"].

(** The world once banner and preflight are through. *)
Definition ready (E : Env) : world := (preflight E start).2.

End Demo.

(** ** Environments with failing tools

    As [Demo.env], but the subprocesses picked out by [bad] fail, and so do
    the clone and the init when asked to. *)

Module Broken.

Definition failed (f : gmap string node) (msg : string) : result :=
  {| after := f; failure := Some (Error msg) |}.

Definition command (bad : string -> option string -> bool)
    (c : string) (cwd : option string) (f : gmap string node) : result :=
  if bad c cwd then failed f ("Command failed: " +:+ c) else Demo.command c cwd f.

Definition clone (fails : bool) (text : string) (url : option string) (dir : string)
    (f : gmap string node) : result :=
  if fails then failed f "fatal: unable to access the repository"
  else Demo.clone text url dir f.

Definition init (fails : bool) (dir : string) (f : gmap string node) : result :=
  if fails then failed f "fatal: cannot initialise" else Demo.init dir f.

Definition env (bad : string -> option string -> bool) (no_clone no_init : bool)
    (text : string) (l : list reply) : Env :=
  {| process_cwd := "/home/dev";
     figlet_BSV := "BSV";
     run_command := command bad;
     run_clone := clone no_clone text;
     run_init := init no_init;
     JSON_parse := Demo.parse;
     user := Demo.replies l;
     inspect_error := Demo.inspect;
     format_specifiers := Demo.specifiers |}.

(** The command [c] fails wherever it is run. *)
Definition everywhere (c : string) (c' : string) (cwd : option string) : bool :=
  c' =? c.

(** The command [c] fails when run in [dir]. *)
Definition inside (c dir : string) (c' : string) (cwd : option string) : bool :=
  (c' =? c) && match cwd with Some d => d =? dir | None => false end.

Definition answers : list reply := [Answer Demo.meter; Answer "foo"; Answer "bar"].

(** A parser that also knows a few documents that are not objects. *)
Definition literals (text : string) : json + string :=
  if text =? "null" then inl JNull
  else if text =? "[1]" then inl (JArr [JNum "1"])
  else if text =? "true" then inl (JBool true)
  else Demo.parse text.

(** As [Demo.env] with the parser [literals]; the manifest of a clone
    holds [null]. *)
Definition reading (l : list reply) : Env :=
  {| process_cwd := "/home/dev";
     figlet_BSV := "BSV";
     run_command := Demo.command;
     run_clone := Demo.clone "null";
     run_init := Demo.init;
     JSON_parse := literals;
     user := Demo.replies l;
     inspect_error := Demo.inspect;
     format_specifiers := Demo.specifiers |}.

(** The tree of a template that has a history and a readme but no
    manifest. *)
Definition bare_tree (dir : string) (f : gmap string node) : gmap string node :=
  <[dir := Dir]>
    (<[dir +:+ "/.git" := Dir]>
       (<[dir +:+ "/.git/HEAD" := File "ref: refs/heads/main"]>
          (<[dir +:+ "/README.md" := File "# template"]> f))).

(** As [Demo.env], the clone leaving [bare_tree]; the init fails when
    [no_init] is set. *)
Definition bare (no_init : bool) (l : list reply) : Env :=
  {| process_cwd := "/home/dev";
     figlet_BSV := "BSV";
     run_command := Demo.command;
     run_clone := fun _ dir f => Demo.ok (bare_tree dir f);
     run_init := init no_init;
     JSON_parse := Demo.parse;
     user := Demo.replies l;
     inspect_error := Demo.inspect;
     format_specifiers := Demo.specifiers |}.

End Broken.

(** ** Vocabulary of the statements *)

(** An [npm install] subprocess. *)
Definition is_install (e : event) : bool :=
  match e with
  | ExecSync command _ => command =? "npm install"
  | _ => false
  end.

Definition is_clone (e : event) : bool :=
  match e with
  | GitClone _ _ => true
  | _ => false
  end.

(** [m] extends the trace, and only by events that satisfy [P]. *)
Definition emits {A} (P : event -> bool) (m : M A) : Prop :=
  forall w, exists evs, trace (m w).2 = trace w ++ evs /\ forallb P evs = true.

(** The object after the loop of [customizePackageJson]. *)
Definition apply_customizations (props customizations : list (string * json))
    : list (string * json) :=
  fold_left (fun o kv => Obj.set o kv.1 kv.2) customizations props.

(** The prompt phase, entered in world [w], meets a failure: some prompt
    among the three is reached (those before it were answered) and the
    renderer comes back from it with an error or an interrupt. *)
Definition prompt_fails (E : Env) (w : world) : Prop :=
  exists n,
    n < 3
    /\ (forall m, m < n -> exists s, user E (asked w + m) = Answer s)
    /\ forall s, user E (asked w + n) <> Answer s.

(** A segment that [normalizeString] keeps as it is. *)
Definition kept (seg : string) : bool := negb ((seg =? "") || (seg =? ".")).

(** The events of [m] that [sel] picks out are, in order, among those of
    [allowed]. *)
Definition only_within {A} (sel : event -> bool) (allowed : list event) (m : M A) : Prop :=
  forall w, exists evs,
    trace (m w).2 = trace w ++ evs /\ sublist (List.filter sel evs) allowed.

Definition is_init (e : event) : bool :=
  match e with
  | GitInit _ => true
  | _ => false
  end.

Definition is_prompt (e : event) : bool :=
  match e with
  | Prompt _ => true
  | _ => false
  end.

(** [m] never exits with a code other than 0 or 1. *)
Definition exits_01 {A} (m : M A) : Prop :=
  forall w, match (m w).1 with
            | Exit code => code = 0%Z \/ code = 1%Z
            | _ => True
            end.

(** The line that announces success. *)
Definition is_done (e : event) : bool :=
  match e with
  | Console Log text => text =? "✅ All done! Start coding with:"
  | _ => false
  end.

(** The three lines of the completion summary. *)
Definition completion (req : request) : list event :=
  [Console Log "✅ All done! Start coding with:";
   Console Log ("cd " +:+ projectName req);
   Console Log "npm start"].

(** [m] ends its events with the completion summary when it returns, and
    does not announce success when it does not. *)
Definition finishes {A} (req : request) (m : M A) : Prop :=
  forall w, exists evs,
    trace (m w).2 = trace w ++ evs
    /\ match (m w).1 with
       | Return _ => exists before, evs = before ++ completion req
       | _ => forallb (fun e => negb (is_done e)) evs = true
       end.

(** [k in o] for an own property. *)
Definition has_key {A} (o : list (string * A)) (k : string) : bool :=
  existsb (String.eqb k) (Obj.keys o).

(** A parsed JSON value that is neither an object nor [null]: an array or
    a primitive. *)
Definition not_assignable (v : json) : bool :=
  match v with
  | JObj _ | JNull => false
  | _ => true
  end.

(** What the materializer may do for the target [projectDir]: print; clone
    into and initialise [projectDir]; remove its [.git]; write its
    [package.json]; run [npm install] in it, in its [frontend] or in its
    [backend]. *)
Definition in_footprint (projectDir : string) (e : event) : bool :=
  match e with
  | Console _ _ => true
  | Prompt _ => false
  | GitClone _ dir => dir =? projectDir
  | GitInit dir => dir =? projectDir
  | RemoveSync p => p =? path.join [projectDir; ".git"]
  | WriteFile p _ => p =? path.join [projectDir; "package.json"]
  | ExecSync command cwd =>
      (command =? "npm install")
      && match cwd with
         | Some dir =>
             (dir =? projectDir)
             || (dir =? path.join [projectDir; "frontend"])
             || (dir =? path.join [projectDir; "backend"])
         | None => false
         end
  end.

(** No ['/'] in [s]. *)
Fixpoint no_slash (s : string) : bool :=
  match s with
  | EmptyString => true
  | String c r => negb (Ascii.eqb c "/") && no_slash r
  end.

(** A segment that names an entry: not empty, not ["."], not [".."], and
    without a separator. *)
Definition plain (seg : string) : bool :=
  kept seg && negb (seg =? "..") && no_slash seg.

(** The [".."] segments of a relative path never climb above the
    directory it starts from: read from the left, [depth] ordinary segments
    deep, every [".."] finds an ordinary segment to cancel. *)
Fixpoint stays_inside (segs : list string) (depth : nat) : bool :=
  match segs with
  | [] => true
  | seg :: rest =>
      if (seg =? "") || (seg =? ".") then stays_inside rest depth
      else if seg =? ".." then
        match depth with
        | O => false
        | S d => stays_inside rest d
        end
      else stays_inside rest (S depth)
  end.

(** * Properties *)

(** ** Sanity checks of the library models *)

Example resolve_plain : path.resolve "/home/u" ["/home/u"; "bsv-app"] = "/home/u/bsv-app".
Proof. reflexivity. Qed.

Example resolve_dots : path.resolve "/home/u" ["/home/u"; "./a//b/../c/"] = "/home/u/a/c".
Proof. reflexivity. Qed.

Example resolve_up : path.resolve "/home/u" ["/home/u"; "../../../x"] = "/x".
Proof. reflexivity. Qed.

Example resolve_abs : path.resolve "/home/u" ["/home/u"; "/tmp/x"] = "/tmp/x".
Proof. reflexivity. Qed.

Example join_manifest : path.join ["/home/u/bsv-app"; "package.json"] = "/home/u/bsv-app/package.json".
Proof. reflexivity. Qed.

Example join_root : path.join ["/"; "package.json"] = "/package.json".
Proof. reflexivity. Qed.

Example full_run_succeeds :
  exit_status (main (Demo.answering Demo.manifest_text) (mkOptions false true false)
                 Demo.start).1 = 0%Z.
Proof. reflexivity. Qed.

Example stringify_nested :
  JSON.stringify (JObj [("a", JArr [JNum "1"; JObj []]); ("b", JStr ("q" +:+ dquote))]) 2
  = "{" +:+ newline +:+
    "  " +:+ dquote +:+ "a" +:+ dquote +:+ ": [" +:+ newline +:+
    "    1," +:+ newline +:+
    "    {}" +:+ newline +:+
    "  ]," +:+ newline +:+
    "  " +:+ dquote +:+ "b" +:+ dquote +:+ ": " +:+ dquote +:+ "q\" +:+ dquote +:+ dquote +:+ newline +:+
    "}".
Proof. reflexivity. Qed.

(** ** Running the monad *)

Lemma bind_Return {A B} (m : M A) (k : A -> M B) w a w' :
  m w = (Return a, w') -> bind m k w = k a w'.
Proof. intros H. unfold bind. now rewrite H. Qed.

Lemma bind_Exit {A B} (m : M A) (k : A -> M B) w code w' :
  m w = (Exit code, w') -> bind m k w = (Exit code, w').
Proof. intros H. unfold bind. now rewrite H. Qed.

Lemma bind_Throw {A B} (m : M A) (k : A -> M B) w e w' :
  m w = (Throw e, w') -> bind m k w = (Throw e, w').
Proof. intros H. unfold bind. now rewrite H. Qed.

Lemma try_catch_Return {A} (m : M A) h w a w' :
  m w = (Return a, w') -> try_catch m h w = (Return a, w').
Proof. intros H. unfold try_catch. now rewrite H. Qed.

Lemma try_catch_Exit {A} (m : M A) h w code w' :
  m w = (Exit code, w') -> try_catch m h w = (Exit code, w').
Proof. intros H. unfold try_catch. now rewrite H. Qed.

Lemma try_catch_Throw {A} (m : M A) h w e w' :
  m w = (Throw e, w') -> try_catch m h w = h e w'.
Proof. intros H. unfold try_catch. now rewrite H. Qed.

Lemma external_ok e tool w f :
  tool (fs w) = {| after := f; failure := None |} ->
  external e tool w = (Return tt, set_fs f (add_event e w)).
Proof. intros H. unfold external. cbn. now rewrite H. Qed.

(** ** Which events a computation can emit *)

Section Emits.

Variable P : event -> bool.

Lemma emits_ret {A} (a : A) : emits P (ret a).
Proof. intros w. exists []. cbn. now rewrite app_nil_r. Qed.

Lemma emits_exit {A} code : emits P (@process_exit A code).
Proof. intros w. exists []. cbn. now rewrite app_nil_r. Qed.

Lemma emits_throw {A} e : emits P (@throw A e).
Proof. intros w. exists []. cbn. now rewrite app_nil_r. Qed.

Lemma emits_bind {A B} (m : M A) (k : A -> M B) :
  emits P m -> (forall a, emits P (k a)) -> emits P (bind m k).
Proof.
  intros Hm Hk w. unfold bind.
  destruct (Hm w) as [evs [Ht Hp]].
  destruct (m w) as [[a | code | e] w1]; cbn in *; try (exists evs; now split).
  destruct (Hk a w1) as [evs' [Ht' Hp']].
  exists (evs ++ evs'). split.
  - rewrite Ht', Ht. now rewrite <- app_assoc.
  - rewrite forallb_app. now rewrite Hp, Hp'.
Qed.

Lemma emits_try_catch {A} (m : M A) (h : error -> M A) :
  emits P m -> (forall e, emits P (h e)) -> emits P (try_catch m h).
Proof.
  intros Hm Hh w. unfold try_catch.
  destruct (Hm w) as [evs [Ht Hp]].
  destruct (m w) as [[a | code | e] w1]; cbn in *; try (exists evs; now split).
  destruct (Hh e w1) as [evs' [Ht' Hp']].
  exists (evs ++ evs'). split.
  - rewrite Ht', Ht. now rewrite <- app_assoc.
  - rewrite forallb_app. now rewrite Hp, Hp'.
Qed.

Lemma emits_if {A} (b : bool) (m1 m2 : M A) :
  emits P m1 -> emits P m2 -> emits P (if b then m1 else m2).
Proof. now destruct b. Qed.

Lemma emits_emit e : P e = true -> emits P (emit e).
Proof. intros H w. exists [e]. cbn. now rewrite H. Qed.

Lemma emits_external e tool : P e = true -> emits P (external e tool).
Proof.
  intros H w. exists [e]. unfold external.
  destruct (failure _); cbn; now rewrite H.
Qed.

Lemma emits_existsSync p : emits P (existsSync p).
Proof. intros w. exists []. cbn. now rewrite app_nil_r. Qed.

Lemma emits_readJsonSync E p : emits P (readJsonSync E p).
Proof.
  intros w. exists []. unfold readJsonSync.
  destruct (fs w !! p) as [[| text] |]; [| destruct (JSON_parse E text) |];
    cbn; now rewrite app_nil_r.
Qed.

Lemma emits_writeJsonSync p v n :
  (forall text, P (WriteFile p text) = true) -> emits P (writeJsonSync p v n).
Proof. intros H w. eexists [_]. cbn. now rewrite H. Qed.

Lemma emits_removeSync p : P (RemoveSync p) = true -> emits P (removeSync p).
Proof. intros H w. exists [RemoveSync p]. cbn. now rewrite H. Qed.

Lemma emits_assign target key v : emits P (assign target key v).
Proof. destruct target; cbn; auto using @emits_ret, @emits_throw. Qed.

Lemma emits_assign_all c : forall target, emits P (assign_all target c).
Proof.
  induction c as [| [key v] rest IH]; intros target; cbn.
  - apply emits_ret.
  - apply emits_bind; [apply emits_assign | auto].
Qed.

Lemma emits_inquirer_prompt E q :
  (forall ch text, P (Console ch text) = true) ->
  P (Prompt (qname q)) = true -> emits P (inquirer_prompt E q).
Proof.
  intros Hc Hq w. unfold inquirer_prompt.
  destruct (user E (asked w)); cbn.
  - exists [Prompt (qname q)]. cbn. now rewrite Hq.
  - exists [Prompt (qname q)]. cbn. now rewrite Hq.
  - eexists [Prompt (qname q); _]. cbn. rewrite <- app_assoc. cbn.
    split; [reflexivity |]. now rewrite Hq, Hc.
Qed.

End Emits.

Ltac emits_step :=
  first
    [ apply emits_ret | apply emits_exit | apply emits_throw
    | apply emits_existsSync | apply emits_readJsonSync | apply emits_assign_all
    | apply emits_emit; reflexivity
    | apply emits_external; reflexivity
    | apply emits_writeJsonSync; intros; reflexivity
    | apply emits_removeSync; reflexivity
    | apply emits_inquirer_prompt; [intros; reflexivity | reflexivity]
    | apply emits_if
    | apply emits_bind; [| intros ?]
    | apply emits_try_catch; [| intros ?] ].

Ltac emits_all := repeat emits_step.

Lemma forallb_not_In {A} (P : A -> bool) (l : list A) (x : A) :
  forallb P l = true -> P x = false -> ~ In x l.
Proof.
  intros Hall Hx Hin. rewrite forallb_forall in Hall.
  specialize (Hall x Hin). congruence.
Qed.

(** Everything but the installation step is free of [npm install]. *)
Lemma main_without_install E opts :
  skipInstall opts = true -> emits (fun e => negb (is_install e)) (main E opts).
Proof.
  intros Hskip. unfold main, run, preamble, preflight, materialize.
  rewrite Hskip. cbn [negb].
  unfold checkGitInstalled, checkNpmInstalled, interaction, cloneTemplate,
    customize, customizePackageJson, execSync, git_clone, git_init,
    console_log, console_error.
  emits_all.
Qed.

(** ** The template registry *)

Lemma get_In {A} (o : list (string * A)) k v :
  Obj.get o k = Some v -> In (k, v) o.
Proof.
  induction o as [| [k' v'] rest IH]; cbn; [discriminate |].
  destruct (String.eqb_spec k' k) as [-> | Hne].
  - intros [= ->]. now left.
  - intros H. right. auto.
Qed.

Lemma In_get {A} (o : list (string * A)) k v :
  List.NoDup (Obj.keys o) -> In (k, v) o -> Obj.get o k = Some v.
Proof.
  induction o as [| [k' v'] rest IH]; cbn; [tauto |].
  intros Hnd [Heq | Hin].
  - injection Heq as -> ->. now rewrite String.eqb_refl.
  - apply NoDup_cons_iff in Hnd as [Hfresh Hnd].
    destruct (String.eqb_spec k' k) as [-> | Hne]; [| auto].
    exfalso. apply Hfresh. unfold Obj.keys.
    change k with (fst (k, v)). now apply in_map.
Qed.

Lemma keys_In {A} (o : list (string * A)) k :
  In k (Obj.keys o) -> exists v, In (k, v) o.
Proof.
  unfold Obj.keys. intros H. apply in_map_iff in H as [[k' v] [Hk Hin]].
  cbn in Hk. subst. eauto.
Qed.

Lemma templates_NoDup : List.NoDup (Obj.keys templates).
Proof. cbn. repeat constructor. intros []. Qed.

(** C7: every label of the template registry has a source location, looking
    the label up yields it, and it is the only location configured for that
    label. *)
Theorem registry_lookup_total_exact (label : string) :
  In label (Obj.keys templates) ->
  exists url,
    Obj.get templates label = Some url
    /\ In (label, url) templates
    /\ forall url', In (label, url') templates -> url' = url.
Proof.
  intros Hlabel. destruct (keys_In _ _ Hlabel) as [url Hin].
  exists url. split; [| split].
  - apply In_get; [apply templates_NoDup | exact Hin].
  - exact Hin.
  - intros url' Hin'.
    pose proof (In_get _ _ _ templates_NoDup Hin) as H1.
    pose proof (In_get _ _ _ templates_NoDup Hin') as H2.
    congruence.
Qed.

Lemma registry_lookup_witness :
  exists url,
    Obj.get templates Demo.meter = Some url
    /\ In (Demo.meter, url) templates
    /\ forall url', In (Demo.meter, url') templates -> url' = url.
Proof. apply (registry_lookup_total_exact Demo.meter). cbn. now left. Defined.

(** ** Non-interactive mode *)

(** C1: with [--yes] the interaction returns, without a prompt and without
    any output, the project name ["bsv-app"], the empty author and the
    template identifier ["meter"]; that identifier is not a label of the
    registry. *)
Theorem noninteractive_request (E : Env) (skip init : bool) (w : world) :
  interaction E {| skipInstall := skip; gitInit := init; yes := true |} w
  = (Return {| template := "meter"; projectName := "bsv-app"; authorName := "" |}, w)
  /\ ~ In "meter" (Obj.keys templates)
  /\ Obj.get templates "meter" = None.
Proof.
  split; [reflexivity | split; [| reflexivity]].
  cbn. intros [H | []]. discriminate H.
Qed.

(** ** The target check *)

(** C3: when the target directory exists, the materializer prints the
    collision message and exits with 1; the filesystem is the one it
    found and the message is the only event. *)
Theorem collision_exits_without_mutation (E : Env) (opts : options)
    (req : request) (w : world) :
  is_Some (fs w !! projectDir_of E (projectName req)) ->
  exists w',
    materialize E opts req w = (Exit 1, w')
    /\ fs w' = fs w
    /\ asked w' = asked w
    /\ trace w' = trace w ++
         [Console Err ("❌ Directory " +:+ dquote +:+ projectName req +:+ dquote
                         +:+ " already exists.")].
Proof.
  intros [n Hn]. eexists. split; [| split; [| split]].
  - unfold materialize, bind at 1, existsSync at 1. rewrite Hn.
    unfold bind at 1. cbn. reflexivity.
  - reflexivity.
  - reflexivity.
  - reflexivity.
Qed.

Lemma collision_witness :
  exists w',
    materialize (Demo.env Demo.manifest_text []) (mkOptions false false true)
      (mkRequest Demo.meter "foo" "") (Demo.project "{}") = (Exit 1, w')
    /\ fs w' = fs (Demo.project "{}")
    /\ asked w' = 0
    /\ trace w' =
         [Console Err ("❌ Directory " +:+ dquote +:+ "foo" +:+ dquote
                         +:+ " already exists.")].
Proof.
  apply (collision_exits_without_mutation (Demo.env Demo.manifest_text [])
           (mkOptions false false true) (mkRequest Demo.meter "foo" "") (Demo.project "{}")).
  vm_compute. eauto.
Defined.

(** ** Skipping the installation *)

(** C8: with [skipInstall] set, whatever the environment holds and however
    the run ends, no event of the run is an [npm install] subprocess. *)
Theorem skip_install_runs_no_install (E : Env) (opts : options) (w : world) :
  skipInstall opts = true ->
  exists evs,
    trace (main E opts w).2 = trace w ++ evs
    /\ forall dir, ~ In (ExecSync "npm install" dir) evs.
Proof.
  intros Hskip. destruct (main_without_install E opts Hskip w) as [evs [Ht Hp]].
  exists evs. split; [exact Ht |].
  intros dir. eapply forallb_not_In; [exact Hp | reflexivity].
Qed.

Lemma skip_install_witness :
  exists evs,
    trace (main (Demo.answering Demo.manifest_text)
             (mkOptions true false false) Demo.start).2 = trace Demo.start ++ evs
    /\ forall dir, ~ In (ExecSync "npm install" dir) evs.
Proof.
  apply (skip_install_runs_no_install (Demo.answering Demo.manifest_text)
           (mkOptions true false false) Demo.start).
  reflexivity.
Defined.

(** ** Metadata customization *)

Lemma get_set_same {A} (o : list (string * A)) k v :
  Obj.get (Obj.set o k v) k = Some v.
Proof.
  induction o as [| [k' v'] rest IH]; cbn.
  - now rewrite String.eqb_refl.
  - destruct (String.eqb_spec k' k) as [-> | Hne]; cbn.
    + now rewrite String.eqb_refl.
    + apply String.eqb_neq in Hne. now rewrite Hne.
Qed.

Lemma get_set_other {A} (o : list (string * A)) k v k0 :
  k0 <> k -> Obj.get (Obj.set o k v) k0 = Obj.get o k0.
Proof.
  intros Hne. induction o as [| [k' v'] rest IH]; cbn.
  - destruct (String.eqb_spec k k0); [congruence | reflexivity].
  - destruct (String.eqb_spec k' k) as [-> | Hne']; cbn.
    + destruct (String.eqb_spec k k0); [congruence | reflexivity].
    + destruct (String.eqb_spec k' k0); [reflexivity | exact IH].
Qed.

Lemma assign_all_object (c : list (string * json)) :
  forall props w,
    assign_all (JObj props) c w = (Return (JObj (apply_customizations props c)), w).
Proof.
  induction c as [| [key v] rest IH]; intros props w; cbn.
  - reflexivity.
  - unfold bind. cbn. apply IH.
Qed.

(** The fields of the customized object, read back. *)
Lemma customized_fields props name author :
  let props' := apply_customizations props (customizations_of name author) in
  Obj.get props' "name" =
    (if nonempty name then Some (JStr name) else Obj.get props "name")
  /\ Obj.get props' "author" =
    (if nonempty author then Some (JStr author) else Obj.get props "author")
  /\ forall k, k <> "name" -> k <> "author" -> Obj.get props' k = Obj.get props k.
Proof.
  unfold customizations_of, apply_customizations.
  destruct (nonempty name), (nonempty author); cbn; repeat split; intros;
    rewrite ?get_set_same, ?get_set_other, ?get_set_same by congruence;
    reflexivity.
Qed.

Lemma customize_object E projectDir req w text props :
  let manifest := path.join [projectDir; "package.json"] in
  let props' :=
    apply_customizations props (customizations_of (projectName req) (authorName req)) in
  let text' := JSON.stringify (JObj props') 2 +:+ newline in
  fs w !! manifest = Some (File text) ->
  JSON_parse E text = inl (JObj props) ->
  customize E projectDir req w =
    (Return tt,
     add_event (Console Log ("Modified package.json: " +:+ JSON.stringify (JObj props') 2))
       (set_fs (<[manifest := File text']> (fs w))
          (add_event (WriteFile manifest text') w))).
Proof.
  intros manifest props' text' Hfile Hparse.
  unfold customize, customizePackageJson. fold manifest.
  unfold bind at 1, existsSync. rewrite Hfile.
  unfold bind at 1, readJsonSync. rewrite Hfile, Hparse.
  unfold bind at 1. rewrite assign_all_object.
  reflexivity.
Qed.

(** C2: the customization step on [projectDir].  Without a manifest the
    step returns and the world is untouched.  With a manifest that parses
    to an object, the file is rewritten with the 2-space serialisation of
    an object whose [name] and [author] are the request's when these are
    non-empty and the old ones otherwise, and whose other fields are the
    old ones.  For the manifest [{"name":"x","version":"1.0.0"}] and the
    request foo/bar the file becomes the three-member document below. *)
Theorem customize_rewrites_manifest (E : Env) (projectDir : string) (w : world) :
  let manifest := path.join [projectDir; "package.json"] in
  (forall req, fs w !! manifest = None -> customize E projectDir req w = (Return tt, w))
  /\ (forall req text props,
        fs w !! manifest = Some (File text) ->
        JSON_parse E text = inl (JObj props) ->
        exists props' w',
          customize E projectDir req w = (Return tt, w')
          /\ fs w' = <[manifest := File (JSON.stringify (JObj props') 2 +:+ newline)]> (fs w)
          /\ Obj.get props' "name" =
               (if nonempty (projectName req) then Some (JStr (projectName req))
                else Obj.get props "name")
          /\ Obj.get props' "author" =
               (if nonempty (authorName req) then Some (JStr (authorName req))
                else Obj.get props "author")
          /\ forall k, k <> "name" -> k <> "author" -> Obj.get props' k = Obj.get props k)
  /\ (forall t text,
        fs w !! manifest = Some (File text) ->
        JSON_parse E text = inl (JObj [("name", JStr "x"); ("version", JStr "1.0.0")]) ->
        exists w',
          customize E projectDir
            {| template := t; projectName := "foo"; authorName := "bar" |} w = (Return tt, w')
          /\ fs w' =
               <[manifest := File
                   ("{" +:+ newline +:+
                    "  " +:+ dquote +:+ "name" +:+ dquote +:+ ": " +:+ dquote +:+ "foo" +:+ dquote +:+ "," +:+ newline +:+
                    "  " +:+ dquote +:+ "version" +:+ dquote +:+ ": " +:+ dquote +:+ "1.0.0" +:+ dquote +:+ "," +:+ newline +:+
                    "  " +:+ dquote +:+ "author" +:+ dquote +:+ ": " +:+ dquote +:+ "bar" +:+ dquote +:+ newline +:+
                    "}" +:+ newline)]> (fs w)).
Proof.
  intros manifest. split; [| split].
  - intros req Hnone. unfold customize, customizePackageJson. fold manifest.
    unfold bind, existsSync. now rewrite Hnone.
  - intros req text props Hfile Hparse.
    pose proof (customized_fields props (projectName req) (authorName req)) as Hf.
    cbv zeta in Hf. destruct Hf as [Hname [Hauthor Hother]].
    eexists. eexists. split.
    + apply (customize_object E projectDir req w text props Hfile Hparse).
    + repeat split; assumption.
  - intros t text Hfile Hparse. eexists. split.
    + apply (customize_object E projectDir _ w text _ Hfile Hparse).
    + reflexivity.
Qed.

Lemma customize_witness :
  exists w',
    customize (Demo.env Demo.manifest_text []) "/home/dev/foo"
      {| template := Demo.meter; projectName := "foo"; authorName := "bar" |}
      (Demo.project Demo.manifest_text) = (Return tt, w')
    /\ fs w' =
         <["/home/dev/foo/package.json" := File
             ("{" +:+ newline +:+
              "  " +:+ dquote +:+ "name" +:+ dquote +:+ ": " +:+ dquote +:+ "foo" +:+ dquote +:+ "," +:+ newline +:+
              "  " +:+ dquote +:+ "version" +:+ dquote +:+ ": " +:+ dquote +:+ "1.0.0" +:+ dquote +:+ "," +:+ newline +:+
              "  " +:+ dquote +:+ "author" +:+ dquote +:+ ": " +:+ dquote +:+ "bar" +:+ dquote +:+ newline +:+
              "}" +:+ newline)]> (fs (Demo.project Demo.manifest_text)).
Proof.
  apply (proj2 (proj2 (customize_rewrites_manifest (Demo.env Demo.manifest_text [])
                         "/home/dev/foo" (Demo.project Demo.manifest_text)))
           Demo.meter Demo.manifest_text); reflexivity.
Defined.

(** ** Dependency installation *)

Lemma installInDir_installs E dir w f :
  is_Some (fs w !! path.join [dir; "package.json"]) ->
  run_command E "npm install" (Some dir) (fs w) = {| after := f; failure := None |} ->
  installInDir E dir w =
    (Return tt,
     add_event (Console Log ("Dependencies installed successfully in " +:+ dir +:+ "."))
       (set_fs f
          (add_event (ExecSync "npm install" (Some dir))
             (add_event (Console Log ("Installing dependencies in " +:+ dir +:+ "...")) w)))).
Proof.
  intros [n Hn] Hrun. unfold installInDir.
  unfold bind at 1, existsSync. rewrite Hn.
  apply try_catch_Return.
  unfold bind at 1, console_log at 1, emit.
  unfold bind at 1, execSync.
  erewrite external_ok by exact Hrun.
  reflexivity.
Qed.

Lemma installInDir_skips E dir w :
  fs w !! path.join [dir; "package.json"] = None ->
  installInDir E dir w =
    (Return tt,
     add_event (Console Warn ("No package.json found in " +:+ dir
                                +:+ ". Skipping dependency installation.")) w).
Proof.
  intros Hnone. unfold installInDir, bind, existsSync. now rewrite Hnone.
Qed.

(** C4: a root with a manifest, a [frontend] with a manifest and a
    [backend] without one, each seen when the step looks at it ([f1] is the
    tree the root install leaves, [f2] the one the frontend install leaves),
    both installs succeeding.  The step runs [npm install] in the root and
    in [frontend] and nowhere else, warns about [backend], and returns. *)
Theorem install_root_frontend_warn_backend (E : Env) (projectDir : string)
    (w : world) (f1 f2 : gmap string node) :
  let frontendDir := path.join [projectDir; "frontend"] in
  let backendDir := path.join [projectDir; "backend"] in
  is_Some (fs w !! path.join [projectDir; "package.json"]) ->
  run_command E "npm install" (Some projectDir) (fs w) = {| after := f1; failure := None |} ->
  is_Some (f1 !! frontendDir) ->
  is_Some (f1 !! path.join [frontendDir; "package.json"]) ->
  run_command E "npm install" (Some frontendDir) f1 = {| after := f2; failure := None |} ->
  is_Some (f2 !! backendDir) ->
  f2 !! path.join [backendDir; "package.json"] = None ->
  exists w',
    installDependencies E projectDir w = (Return tt, w')
    /\ fs w' = f2
    /\ trace w' = trace w ++
         [Console Log ("Installing dependencies in " +:+ projectDir +:+ "...");
          ExecSync "npm install" (Some projectDir);
          Console Log ("Dependencies installed successfully in " +:+ projectDir +:+ ".");
          Console Log ("Installing dependencies in " +:+ frontendDir +:+ "...");
          ExecSync "npm install" (Some frontendDir);
          Console Log ("Dependencies installed successfully in " +:+ frontendDir +:+ ".");
          Console Warn ("No package.json found in " +:+ backendDir
                          +:+ ". Skipping dependency installation.")].
Proof.
  intros frontendDir backendDir Hroot Hrun1 [nf Hfront] Hfm Hrun2 [nb Hback] Hbm.
  eexists. split; [| split].
  - unfold installDependencies. fold frontendDir backendDir.
    erewrite bind_Return by (apply installInDir_installs; eassumption).
    unfold bind at 1, existsSync at 1. cbn [fs set_fs add_event]. rewrite Hfront.
    erewrite bind_Return by (apply installInDir_installs; eassumption).
    unfold bind at 1, existsSync at 1. cbn [fs set_fs add_event]. rewrite Hback.
    apply installInDir_skips. exact Hbm.
  - reflexivity.
  - cbn [trace set_fs add_event]. rewrite <- !app_assoc. reflexivity.
Qed.

Lemma install_witness :
  exists w',
    installDependencies (Demo.env Demo.manifest_text []) "/home/dev/foo"
      (Demo.project Demo.manifest_text) = (Return tt, w')
    /\ fs w' = <["/home/dev/foo/frontend/node_modules" := Dir]>
                 (<["/home/dev/foo/node_modules" := Dir]>
                    (fs (Demo.project Demo.manifest_text)))
    /\ trace w' =
         [Console Log "Installing dependencies in /home/dev/foo...";
          ExecSync "npm install" (Some "/home/dev/foo");
          Console Log "Dependencies installed successfully in /home/dev/foo.";
          Console Log "Installing dependencies in /home/dev/foo/frontend...";
          ExecSync "npm install" (Some "/home/dev/foo/frontend");
          Console Log "Dependencies installed successfully in /home/dev/foo/frontend.";
          Console Warn "No package.json found in /home/dev/foo/backend. Skipping dependency installation."].
Proof.
  apply (install_root_frontend_warn_backend (Demo.env Demo.manifest_text [])
           "/home/dev/foo" (Demo.project Demo.manifest_text)
           (<["/home/dev/foo/node_modules" := Dir]>
              (fs (Demo.project Demo.manifest_text)))
           (<["/home/dev/foo/frontend/node_modules" := Dir]>
              (<["/home/dev/foo/node_modules" := Dir]>
                 (fs (Demo.project Demo.manifest_text)))));
    vm_compute; eauto.
Defined.

(** ** Failures of the prompt phase *)

Lemma inquirer_prompt_Answer E q w s :
  user E (asked w) = Answer s ->
  inquirer_prompt E q w = (Return s, next_prompt (add_event (Prompt (qname q)) w)).
Proof. intros H. unfold inquirer_prompt. now rewrite H. Qed.

(** A prompt that does not answer either throws, or runs the interrupt
    handler, which prints and exits with 0. *)
Lemma inquirer_prompt_fails E q w :
  (forall s, user E (asked w) <> Answer s) ->
  let w1 := next_prompt (add_event (Prompt (qname q)) w) in
  (exists e, inquirer_prompt E q w = (Throw e, w1))
  \/ (exists text, inquirer_prompt E q w = (Exit 0, add_event (Console Log text) w1)).
Proof.
  intros Hbad w1. unfold inquirer_prompt. fold w1.
  destruct (user E (asked w)) as [s | e |].
  - now destruct (Hbad s).
  - left. eauto.
  - right. eexists. reflexivity.
Qed.

(** The [catch] block prints one message and exits with 0. *)
Lemma interaction_catch_exits error w :
  exists ch text,
    interaction_catch error w = (Exit 0, add_event (Console ch text) w).
Proof.
  unfold interaction_catch.
  destruct (isTtyError error); [| destruct (includes _ _)];
    eexists; eexists; reflexivity.
Qed.

(** A computation that ends in a failing prompt, under the [catch] block. *)
Lemma failing_prompt_caught E q (k : string -> M request) w :
  (forall s, user E (asked w) <> Answer s) ->
  exists w' ch text,
    try_catch (bind (inquirer_prompt E q) k) interaction_catch w = (Exit 0, w')
    /\ fs w' = fs w
    /\ last (trace w') = Some (Console ch text).
Proof.
  intros Hbad.
  destruct (inquirer_prompt_fails E q w Hbad) as [[e He] | [text Ht]].
  - destruct (interaction_catch_exits e (next_prompt (add_event (Prompt (qname q)) w)))
      as [ch [text Hc]].
    eexists. exists ch, text. split; [| split].
    + erewrite try_catch_Throw by (apply bind_Throw; exact He). exact Hc.
    + reflexivity.
    + cbn. apply last_snoc.
  - eexists. exists Log, text. split; [| split].
    + apply try_catch_Exit. apply bind_Exit. exact Ht.
    + reflexivity.
    + cbn. apply last_snoc.
Qed.

Lemma try_catch_bind_Return {A B} (m : M A) (k : A -> M B) h w a w1 :
  m w = (Return a, w1) ->
  try_catch (bind m k) h w = try_catch (k a) h w1.
Proof. intros H. unfold try_catch. now rewrite (bind_Return _ _ _ _ _ H). Qed.

Ltac close_failing_prompt Hbad :=
  match goal with
  | |- exists _ _ _,
        try_catch (bind (inquirer_prompt _ ?q) ?k) _ ?w1 = _ /\ _ =>
      let w' := fresh "w'" in
      let ch := fresh "ch" in
      let text := fresh "text" in
      let H1 := fresh in
      let H2 := fresh in
      let H3 := fresh in
      destruct (failing_prompt_caught _ q k w1 Hbad) as (w' & ch & text & H1 & H2 & H3);
      exists w', ch, text; split; [exact H1 | split; [exact H2 | exact H3]]
  end.

Lemma interaction_failure E opts w :
  yes opts = false ->
  prompt_fails E w ->
  exists w' ch text,
    interaction E opts w = (Exit 0, w')
    /\ fs w' = fs w
    /\ last (trace w') = Some (Console ch text).
Proof.
  intros Hyes [n [Hn [Hprev Hbad]]].
  unfold interaction, interaction_try. rewrite Hyes.
  destruct n as [| [| [| n]]]; [| | | lia].
  - rewrite Nat.add_0_r in Hbad. close_failing_prompt Hbad.
  - destruct (Hprev 0 ltac:(lia)) as [s0 H0]. rewrite Nat.add_0_r in H0.
    erewrite try_catch_bind_Return by (apply inquirer_prompt_Answer; exact H0).
    rewrite Nat.add_1_r in Hbad.
    close_failing_prompt Hbad.
  - destruct (Hprev 0 ltac:(lia)) as [s0 H0]. rewrite Nat.add_0_r in H0.
    destruct (Hprev 1 ltac:(lia)) as [s1 H1]. rewrite Nat.add_1_r in H1.
    erewrite try_catch_bind_Return by (apply inquirer_prompt_Answer; exact H0).
    erewrite try_catch_bind_Return by (apply inquirer_prompt_Answer; exact H1).
    replace (asked w + 2) with (S (S (asked w))) in Hbad by lia.
    close_failing_prompt Hbad.
Qed.

(** The interaction never throws and never exits with a code other than 0. *)
Lemma interaction_never_fatal E opts w :
  match (interaction E opts w).1 with
  | Return _ => True
  | Exit code => code = 0%Z
  | Throw _ => False
  end.
Proof.
  unfold interaction, try_catch.
  destruct (interaction_try E opts w) as [[req | code | e] w1] eqn:Htry; cbn.
  - exact I.
  - unfold interaction_try in Htry. destruct (yes opts); [discriminate |].
    unfold bind, inquirer_prompt in Htry.
    repeat (match type of Htry with
            | context [user E ?n] => destruct (user E n)
            end; cbn in Htry; try discriminate; try (injection Htry as <- _; reflexivity)).
  - destruct (interaction_catch_exits e w1) as [ch [text ->]]. reflexivity.
Qed.

(** C5: when a prompt of the interactive phase fails, by an error of any
    kind or by an interrupt, the process prints a message and ends with exit
    code 0, the filesystem being as the preflight left it; and in no case
    does the prompt phase end the process with another code or let an error
    through. *)
Theorem prompt_failure_exits_zero (E : Env) (opts : options) (w0 w : world) :
  yes opts = false ->
  preflight E w0 = (Return tt, w) ->
  prompt_fails E w ->
  (exists w' ch text,
     main E opts w0 = (Exit 0, w')
     /\ exit_status (main E opts w0).1 = 0%Z
     /\ fs w' = fs w
     /\ last (trace w') = Some (Console ch text))
  /\ forall code w', interaction E opts w = (Exit code, w') -> code = 0%Z.
Proof.
  intros Hyes Hpre Hfail. split.
  - destruct (interaction_failure E opts w Hyes Hfail) as [w' [ch [text [Hi [Hfs Hlast]]]]].
    assert (Hmain : main E opts w0 = (Exit 0, w')).
    { unfold main, run, preamble.
      apply try_catch_Exit. apply bind_Exit.
      rewrite (bind_Return _ _ _ _ _ Hpre). exact Hi. }
    exists w', ch, text. rewrite Hmain. auto.
  - intros code w' Hexit.
    pose proof (interaction_never_fatal E opts w) as H. rewrite Hexit in H. exact H.
Qed.

Lemma prompt_failure_witness :
  (exists w' ch text,
     main Demo.aborting (mkOptions false false false) Demo.start = (Exit 0, w')
     /\ exit_status (main Demo.aborting (mkOptions false false false) Demo.start).1 = 0%Z
     /\ fs w' = fs (Demo.ready Demo.aborting)
     /\ last (trace w') = Some (Console ch text))
  /\ forall code w',
       interaction Demo.aborting (mkOptions false false false) (Demo.ready Demo.aborting)
         = (Exit code, w') -> code = 0%Z.
Proof.
  apply (prompt_failure_exits_zero Demo.aborting (mkOptions false false false)
           Demo.start (Demo.ready Demo.aborting)).
  - reflexivity.
  - reflexivity.
  - exists 1. split; [lia | split].
    + intros m Hm. assert (m = 0) as -> by lia. vm_compute. eauto.
    + intros s. vm_compute. discriminate.
Defined.

(** ** The clone of non-interactive mode *)

Lemma after_bind {A B} (P : event -> bool) pre (m : M A) (k : A -> M B) w :
  (exists evs, trace (m w).2 = trace w ++ pre ++ evs /\ forallb P evs = true) ->
  (forall a, emits P (k a)) ->
  exists evs, trace (bind m k w).2 = trace w ++ pre ++ evs /\ forallb P evs = true.
Proof.
  intros [evs [Ht Hp]] Hk. unfold bind.
  destruct (m w) as [[a | code | e] w1]; cbn in *; try (exists evs; now split).
  destruct (Hk a w1) as [evs' [Ht' Hp']].
  exists (evs ++ evs'). split.
  - rewrite Ht', Ht. now rewrite <- !app_assoc.
  - rewrite forallb_app. now rewrite Hp, Hp'.
Qed.

Lemma after_try_catch {A} (P : event -> bool) pre (m : M A) h w :
  (exists evs, trace (m w).2 = trace w ++ pre ++ evs /\ forallb P evs = true) ->
  (forall e, emits P (h e)) ->
  exists evs, trace (try_catch m h w).2 = trace w ++ pre ++ evs /\ forallb P evs = true.
Proof.
  intros [evs [Ht Hp]] Hh. unfold try_catch.
  destruct (m w) as [[a | code | e] w1]; cbn in *; try (exists evs; now split).
  destruct (Hh e w1) as [evs' [Ht' Hp']].
  exists (evs ++ evs'). split.
  - rewrite Ht', Ht. now rewrite <- !app_assoc.
  - rewrite forallb_app. now rewrite Hp, Hp'.
Qed.

(** [cloneTemplate] announces the clone, invokes it once with the URL it
    was given, and clones nothing else. *)
Lemma cloneTemplate_trace E url dir w :
  exists evs,
    trace (cloneTemplate E url dir w).2 =
      trace w ++ [Console Log ("Cloning repository from " +:+ show url +:+ "...");
                  GitClone url dir] ++ evs
    /\ forallb (fun e => negb (is_clone e)) evs = true.
Proof.
  unfold cloneTemplate, try_catch, bind, console_log, console_error, emit,
    git_clone, external.
  cbn. destruct (failure _); cbn; rewrite <- !app_assoc; cbn;
    eexists; (split; [reflexivity | reflexivity]).
Qed.

(** C9: in non-interactive mode the request holds ['meter'], which is not
    a key of the registry (whose Meter entry has another label); the lookup
    before the clone yields [undefined], and the one clone of the run is
    invoked with that undefined URL. *)
Theorem noninteractive_clone_url_undefined (E : Env) (opts : options) (w0 w : world) :
  yes opts = true ->
  preflight E w0 = (Return tt, w) ->
  fs w !! projectDir_of E "bsv-app" = None ->
  preamble E opts w0
    = (Return {| template := "meter"; projectName := "bsv-app"; authorName := "" |}, w)
  /\ Obj.get templates "meter" = None
  /\ Obj.get templates "Meter - A feature-packed starting point"
       = Some "https://github.com/p2ppsr/meter.git"
  /\ exists evs,
       trace (main E opts w0).2 =
         trace w ++ [Console Log "Cloning repository from undefined...";
                     GitClone None (projectDir_of E "bsv-app")] ++ evs
       /\ forall url dir, ~ In (GitClone url dir) evs.
Proof.
  intros Hyes Hpre Hfree.
  assert (Hreq : preamble E opts w0
            = (Return {| template := "meter"; projectName := "bsv-app"; authorName := "" |}, w)).
  { unfold preamble. rewrite (bind_Return _ _ _ _ _ Hpre).
    unfold interaction, interaction_try. now rewrite Hyes. }
  split; [exact Hreq |]. split; [reflexivity |]. split; [reflexivity |].
  assert (H : exists evs,
             trace (main E opts w0).2 =
               trace w ++ [Console Log "Cloning repository from undefined...";
                           GitClone None (projectDir_of E "bsv-app")] ++ evs
             /\ forallb (fun e => negb (is_clone e)) evs = true).
  { unfold main, run. rewrite (try_catch_bind_Return _ _ _ _ _ _ Hreq).
    apply after_try_catch;
      [| intros e; unfold console_error; emits_all].
    unfold materialize. cbn [projectName template].
    unfold bind at 1, existsSync at 1. rewrite Hfree.
    unfold bind at 1, ret at 1.
    apply after_bind; [apply (cloneTemplate_trace E None) |].
    intros _.
    unfold customize, customizePackageJson, installDependencies, installInDir,
      execSync, git_init, console_log, console_error, console_warn.
    emits_all. }
  destruct H as [evs [Ht Hp]]. exists evs. split; [exact Ht |].
  intros url dir. eapply forallb_not_In; [exact Hp | reflexivity].
Qed.

Lemma noninteractive_clone_witness :
  preamble (Demo.env Demo.manifest_text []) (mkOptions false false true) Demo.start
    = (Return {| template := "meter"; projectName := "bsv-app"; authorName := "" |},
       Demo.ready (Demo.env Demo.manifest_text []))
  /\ Obj.get templates "meter" = None
  /\ Obj.get templates "Meter - A feature-packed starting point"
       = Some "https://github.com/p2ppsr/meter.git"
  /\ exists evs,
       trace (main (Demo.env Demo.manifest_text []) (mkOptions false false true) Demo.start).2 =
         trace (Demo.ready (Demo.env Demo.manifest_text []))
           ++ [Console Log "Cloning repository from undefined...";
               GitClone None (projectDir_of (Demo.env Demo.manifest_text []) "bsv-app")] ++ evs
       /\ forall url dir, ~ In (GitClone url dir) evs.
Proof.
  apply (noninteractive_clone_url_undefined (Demo.env Demo.manifest_text [])
           (mkOptions false false true) Demo.start
           (Demo.ready (Demo.env Demo.manifest_text []))); reflexivity.
Defined.

(** ** A manifest that is not JSON *)

Lemma cloneTemplate_ok E url dir w f :
  run_clone E url dir (fs w) = {| after := f; failure := None |} ->
  cloneTemplate E url dir w =
    (Return tt,
     add_event (Console Log ("Repository cloned to " +:+ dir))
       (set_fs f
          (add_event (GitClone url dir)
             (add_event (Console Log ("Cloning repository from " +:+ show url +:+ "...")) w)))).
Proof.
  intros Hrun. unfold cloneTemplate. apply try_catch_Return.
  unfold bind at 1, console_log at 1, emit.
  unfold bind at 1, git_clone.
  erewrite external_ok by exact Hrun.
  reflexivity.
Qed.

Lemma customize_unparseable E projectDir req w text msg :
  let manifest := path.join [projectDir; "package.json"] in
  fs w !! manifest = Some (File text) ->
  JSON_parse E text = inr msg ->
  customize E projectDir req w = (Throw (Error (manifest +:+ ": " +:+ msg)), w).
Proof.
  intros manifest Hfile Hparse.
  unfold customize, customizePackageJson. fold manifest.
  unfold bind at 1, existsSync. rewrite Hfile.
  unfold bind at 1, readJsonSync. now rewrite Hfile, Hparse.
Qed.

(** C10: the clone succeeded and the manifest of the history-stripped
    tree exists but does not parse.  The customization step does not skip
    it: it throws the parse error [e], whose message is the manifest's path
    and the parser's message.  [run] ends with that error, which only the
    handler of last resort catches: it prints the error object and the
    process exits with 1.  The tree on disk is the cloned one without its
    [.git], and nothing was written to it. *)
Theorem unparseable_manifest_is_fatal (E : Env) (opts : options) (req : request)
    (w0 w : world) (cloned : gmap string node) (text msg : string) :
  let projectDir := projectDir_of E (projectName req) in
  let gitDir := path.join [projectDir; ".git"] in
  let manifest := path.join [projectDir; "package.json"] in
  let url := Obj.get templates (template req) in
  let stripped :=
    match cloned !! gitDir with
    | Some _ => remove_tree gitDir cloned
    | None => cloned
    end in
  let e := Error (manifest +:+ ": " +:+ msg) in
  preamble E opts w0 = (Return req, w) ->
  fs w !! projectDir = None ->
  run_clone E url projectDir (fs w) = {| after := cloned; failure := None |} ->
  stripped !! manifest = Some (File text) ->
  JSON_parse E text = inr msg ->
  exists w1 w',
    (forall wx, fs wx = stripped -> customize E projectDir req wx = (Throw e, wx))
    /\ run E opts w0 = (Throw e, w1)
    /\ main E opts w0 = (Exit 1, w')
    /\ exit_status (main E opts w0).1 = 1%Z
    /\ fs w' = stripped
    /\ trace w' = trace w ++
         [Console Log ("Cloning repository from " +:+ show url +:+ "...");
          GitClone url projectDir;
          Console Log ("Repository cloned to " +:+ projectDir)]
         ++ match cloned !! gitDir with
            | Some _ => [RemoveSync gitDir]
            | None => []
            end
         ++ [Console Err ("❌ An error occurred: " +:+ inspect_error E e)].
Proof.
  intros projectDir gitDir manifest url stripped e Hpre Hfree Hclone Hfile Hparse.
  assert (Hstep : forall wx, fs wx = stripped ->
            customize E projectDir req wx = (Throw e, wx)).
  { intros wx Hwx. apply customize_unparseable with (text := text); [| exact Hparse].
    fold manifest. now rewrite Hwx. }
  assert (Hrun : exists w1,
            run E opts w0 = (Throw e, w1)
            /\ fs w1 = stripped
            /\ trace w1 = trace w ++
                 [Console Log ("Cloning repository from " +:+ show url +:+ "...");
                  GitClone url projectDir;
                  Console Log ("Repository cloned to " +:+ projectDir)]
                 ++ match cloned !! gitDir with
                    | Some _ => [RemoveSync gitDir]
                    | None => []
                    end).
  { unfold run. rewrite (bind_Return _ _ _ _ _ Hpre).
    unfold materialize. fold projectDir gitDir url.
    unfold bind at 1, existsSync at 1. rewrite Hfree.
    unfold bind at 1, ret at 1.
    rewrite (bind_Return _ _ _ _ _ (cloneTemplate_ok E url projectDir w cloned Hclone)).
    unfold bind at 1, existsSync at 1. cbn [fs set_fs add_event].
    subst stripped. destruct (cloned !! gitDir) as [n |].
    - unfold bind at 1, removeSync. cbn [fs set_fs add_event].
      eexists. split; [| split].
      + apply bind_Throw. apply Hstep. reflexivity.
      + reflexivity.
      + cbn [trace set_fs add_event]. rewrite <- !app_assoc. reflexivity.
    - unfold bind at 1, ret at 1.
      eexists. split; [| split].
      + apply bind_Throw. apply Hstep. reflexivity.
      + reflexivity.
      + cbn [trace set_fs add_event]. rewrite <- !app_assoc. reflexivity. }
  destruct Hrun as [w1 [Hrun [Hfs Htr]]].
  assert (Hmain : main E opts w0 =
            (Exit 1, add_event (Console Err ("❌ An error occurred: " +:+ inspect_error E e)) w1)).
  { unfold main. rewrite (try_catch_Throw _ _ _ _ _ Hrun). reflexivity. }
  exists w1. eexists. split; [exact Hstep |]. split; [exact Hrun |].
  split; [exact Hmain |]. rewrite Hmain. split; [reflexivity |].
  split; [exact Hfs |].
  cbn [trace add_event]. rewrite Htr. rewrite <- !app_assoc. reflexivity.
Qed.

Lemma unparseable_manifest_witness :
  exists w1 w',
    (forall wx,
        fs wx = remove_tree "/home/dev/foo/.git"
                  (Demo.clone_tree "not json" "/home/dev/foo" Demo.disk) ->
        customize (Demo.answering "not json") "/home/dev/foo"
          (mkRequest Demo.meter "foo" "bar") wx
        = (Throw (Error "/home/dev/foo/package.json: Unexpected token in JSON at position 0"),
           wx))
    /\ run (Demo.answering "not json") (mkOptions false false false) Demo.start
       = (Throw (Error "/home/dev/foo/package.json: Unexpected token in JSON at position 0"),
          w1)
    /\ main (Demo.answering "not json") (mkOptions false false false) Demo.start = (Exit 1, w')
    /\ exit_status (main (Demo.answering "not json") (mkOptions false false false) Demo.start).1 = 1%Z
    /\ fs w' = remove_tree "/home/dev/foo/.git"
                 (Demo.clone_tree "not json" "/home/dev/foo" Demo.disk)
    /\ trace w' =
         [Console Log "BSV";
          Console Log "Start building your BSV-powered app with ease! 🚀";
          ExecSync "git --version" None;
          ExecSync "npm --version" None;
          Prompt "templateChoice";
          Prompt "projectNameInput";
          Prompt "authorNameInput";
          Console Log "Cloning repository from https://github.com/p2ppsr/meter.git...";
          GitClone (Some "https://github.com/p2ppsr/meter.git") "/home/dev/foo";
          Console Log "Repository cloned to /home/dev/foo";
          RemoveSync "/home/dev/foo/.git";
          Console Err
            ("❌ An error occurred: " +:+
             Demo.inspect
               (Error "/home/dev/foo/package.json: Unexpected token in JSON at position 0"))].
Proof.
  apply (unparseable_manifest_is_fatal (Demo.answering "not json")
           (mkOptions false false false) (mkRequest Demo.meter "foo" "bar")
           Demo.start
           (preamble (Demo.answering "not json") (mkOptions false false false) Demo.start).2
           (Demo.clone_tree "not json" "/home/dev/foo" Demo.disk) "not json"
           "Unexpected token in JSON at position 0");
    reflexivity.
Defined.

(** ** Where the target directory lies *)

Lemma append_cons (c : ascii) (r s : string) : String c r +:+ s = String c (r +:+ s).
Proof. reflexivity. Qed.

Lemma append_assoc (a b c : string) : (a +:+ b) +:+ c = a +:+ (b +:+ c).
Proof.
  induction a as [| x a IH]; [reflexivity |].
  rewrite !append_cons. now rewrite IH.
Qed.

Lemma prefix_append (a b : string) : String.prefix a (a +:+ b) = true.
Proof.
  induction a as [| x a IH].
  - now destruct b.
  - rewrite append_cons. cbn [String.prefix].
    destruct (ascii_dec x x); [exact IH | congruence].
Qed.

Lemma concat_app sep (xs ys : list string) :
  xs <> [] -> ys <> [] ->
  String.concat sep (xs ++ ys) = String.concat sep xs +:+ sep +:+ String.concat sep ys.
Proof.
  intros Hxs Hys. induction xs as [| x xs IH]; [congruence |].
  destruct xs as [| x' xs].
  - cbn. destruct ys; [congruence | reflexivity].
  - change (String.concat sep ((x :: x' :: xs) ++ ys))
      with (x +:+ sep +:+ String.concat sep ((x' :: xs) ++ ys)).
    rewrite IH by congruence.
    change (String.concat sep (x :: x' :: xs))
      with (x +:+ sep +:+ String.concat sep (x' :: xs)).
    now rewrite !append_assoc.
Qed.

Lemma segments_nonempty (s : string) : path.segments s <> [].
Proof.
  destruct s as [| c r]; cbn; [congruence |].
  destruct (Ascii.eqb c "/"); [congruence |].
  destruct (path.segments r); congruence.
Qed.

(** Splitting distributes over a separator. *)
Lemma segments_slash (a b : string) :
  path.segments (a +:+ "/" +:+ b) = path.segments a ++ path.segments b.
Proof.
  induction a as [| c r IH]; [reflexivity |].
  rewrite append_cons. cbn [path.segments]. rewrite IH.
  destruct (Ascii.eqb c "/"); [reflexivity |].
  pose proof (segments_nonempty r) as Hne.
  destruct (path.segments r); [congruence | reflexivity].
Qed.

Lemma normalizeSegs_app allow (xs ys : list string) :
  forall res,
    path.normalizeSegs allow res (xs ++ ys)
    = path.normalizeSegs allow (rev (path.normalizeSegs allow res xs)) ys.
Proof.
  induction xs as [| seg rest IH]; intros res.
  - cbn. now rewrite rev_involutive.
  - cbn [app path.normalizeSegs].
    destruct ((seg =? "") || (seg =? ".")); [apply IH |].
    destruct (seg =? ".."); [| apply IH].
    destruct res as [| last res']; [apply IH |].
    destruct (last =? ".."); apply IH.
Qed.

Lemma normalizeSegs_plain allow (ys : list string) :
  ~ In ".." ys ->
  forall res, path.normalizeSegs allow res ys = rev res ++ List.filter kept ys.
Proof.
  induction ys as [| seg rest IH]; intros Hno res.
  - cbn. now rewrite app_nil_r.
  - cbn [path.normalizeSegs List.filter]. unfold kept at 1.
    assert (Hrest : ~ In ".." rest) by (intros H; apply Hno; now right).
    destruct ((seg =? "") || (seg =? ".")); cbn [negb]; [now apply IH |].
    destruct (String.eqb_spec seg "..") as [-> | Hne].
    + exfalso. apply Hno. now left.
    + rewrite IH by exact Hrest. cbn [rev]. now rewrite <- app_assoc.
Qed.

(** What resolving a relative name against an absolute directory gives. *)
Lemma resolve_relative (cwd p : string) :
  path.isAbsolute cwd = true ->
  nonempty p = true ->
  path.isAbsolute p = false ->
  path.resolve cwd [cwd; p]
  = "/" +:+ String.concat "/"
              (path.normalizeSegs false [] (path.segments cwd ++ path.segments p ++ [""])).
Proof.
  intros Habs Hp Hrel. unfold path.resolve. cbn [rev app fold_left].
  unfold path.resolve_step at 3. rewrite Hp. cbn [negb]. rewrite Hrel.
  unfold path.resolve_step at 2.
  assert (Hc : nonempty cwd = true) by (destruct cwd; [discriminate | reflexivity]).
  rewrite Hc. cbn [negb]. rewrite Habs.
  unfold path.resolve_step. cbn [negb].
  unfold path.normalizeString.
  rewrite (segments_slash cwd), (segments_slash p). reflexivity.
Qed.

Lemma resolve_cwd (cwd : string) :
  path.isAbsolute cwd = true ->
  path.resolve cwd []
  = "/" +:+ String.concat "/" (path.normalizeSegs false [] (path.segments cwd)).
Proof.
  intros Habs. unfold path.resolve. cbn [rev app fold_left].
  unfold path.resolve_step.
  assert (Hc : nonempty cwd = true) by (destruct cwd; [discriminate | reflexivity]).
  rewrite Hc. cbn [negb]. rewrite Habs. cbn [negb].
  unfold path.normalizeString. rewrite (segments_slash cwd).
  rewrite normalizeSegs_app. cbn. now rewrite rev_involutive.
Qed.

Lemma prefix_slash (s : string) : String.prefix "/" ("/" +:+ s) = true.
Proof. apply (prefix_append "/" s). Qed.

(** Segments that never climb leave the directory they start from in
    place: [top] holds what the path has added so far. *)
Lemma normalizeSegs_inside (base : list string) (segs : list string) :
  forall top,
    Forall (fun seg => seg <> "..") top ->
    stays_inside segs (List.length top) = true ->
    exists rest, path.normalizeSegs false (top ++ base) segs = rev base ++ rest.
Proof.
  induction segs as [| seg segs IH]; intros top Htop Hin.
  - exists (rev top). cbn. now rewrite rev_app_distr.
  - cbn [path.normalizeSegs stays_inside] in *.
    destruct ((seg =? "") || (seg =? ".")); [now apply IH |].
    destruct (String.eqb_spec seg "..") as [-> | Hne].
    + destruct top as [| t top']; [discriminate Hin |].
      inversion Htop as [| ? ? Ht Htop']; subst.
      cbn [app]. apply String.eqb_neq in Ht. rewrite Ht.
      apply IH; assumption.
    + apply (IH (seg :: top)); [now constructor | exact Hin].
Qed.

(** C6, as the code has it: a non-empty project name that is relative
    and whose [".."] segments never climb above the working directory
    resolves to an absolute path that is the working directory or lies
    below it. *)
Theorem relative_name_resolves_under_cwd (E : Env) (name : string) :
  path.is_cwd (process_cwd E) ->
  validate_projectName name = inl true ->
  path.isAbsolute name = false ->
  stays_inside (path.segments name) 0 = true ->
  path.isAbsolute (projectDir_of E name) = true
  /\ path.lies_under (process_cwd E) (projectDir_of E name) = true.
Proof.
  intros [Habs Hfix] Hvalid Hrel Hin.
  assert (Hname : nonempty name = true).
  { unfold validate_projectName in Hvalid. now destruct (nonempty name). }
  unfold projectDir_of. rewrite (resolve_relative _ _ Habs Hname Hrel).
  rewrite (resolve_cwd _ Habs) in Hfix.
  set (cs := path.normalizeSegs false [] (path.segments (process_cwd E))) in *.
  rewrite normalizeSegs_app. fold cs.
  rewrite normalizeSegs_app.
  destruct (normalizeSegs_inside (rev cs) (path.segments name) [] (List.Forall_nil _) Hin)
    as [ps Hps].
  cbn [app] in Hps. rewrite Hps, rev_involutive.
  change (path.normalizeSegs false (rev (cs ++ ps)) [""]) with (rev (rev (cs ++ ps))).
  rewrite rev_involutive.
  split; [apply prefix_slash |].
  unfold path.lies_under.
  destruct ps as [| p ps].
  - rewrite app_nil_r, Hfix. now rewrite String.eqb_refl.
  - apply orb_true_iff. right.
    destruct (String.eqb_spec (process_cwd E) "/") as [Hroot | Hroot].
    + apply prefix_slash.
    + destruct cs as [| c cs].
      * exfalso. apply Hroot. now rewrite <- Hfix.
      * rewrite concat_app by congruence.
        rewrite <- append_assoc, Hfix, <- append_assoc.
        apply prefix_append.
Qed.

Lemma relative_name_witness :
  path.isAbsolute (projectDir_of (Demo.env Demo.manifest_text []) "apps/../wallet/./x") = true
  /\ path.lies_under (process_cwd (Demo.env Demo.manifest_text []))
       (projectDir_of (Demo.env Demo.manifest_text []) "apps/../wallet/./x") = true.
Proof.
  apply (relative_name_resolves_under_cwd (Demo.env Demo.manifest_text [])
           "apps/../wallet/./x").
  - split; reflexivity.
  - reflexivity.
  - reflexivity.
  - reflexivity.
Defined.

(** C6, as stated, fails: an absolute project name, and a name that climbs
    with [".."], are non-empty, pass the validation, come out of the
    interaction as the project name, and resolve outside the working
    directory. *)
Lemma accepted_name_escapes_cwd :
  path.is_cwd "/home/dev"
  /\ validate_projectName "/tmp/x" = inl true
  /\ (interaction (Demo.env Demo.manifest_text [Answer Demo.meter; Answer "/tmp/x"; Answer ""])
        (mkOptions false false false) Demo.start).1
     = Return {| template := Demo.meter; projectName := "/tmp/x"; authorName := "" |}
  /\ projectDir_of (Demo.env Demo.manifest_text []) "/tmp/x" = "/tmp/x"
  /\ path.lies_under "/home/dev" "/tmp/x" = false
  /\ validate_projectName "../x" = inl true
  /\ projectDir_of (Demo.env Demo.manifest_text []) "../x" = "/home/x"
  /\ path.lies_under "/home/dev" "/home/x" = false
  /\ ~ (forall (E : Env) (name : string),
          path.is_cwd (process_cwd E) ->
          validate_projectName name = inl true ->
          path.lies_under (process_cwd E) (projectDir_of E name) = true).
Proof.
  split; [split; reflexivity |].
  repeat (split; [reflexivity |]).
  intros H.
  specialize (H (Demo.env Demo.manifest_text []) "/tmp/x").
  assert (Hc : path.is_cwd (process_cwd (Demo.env Demo.manifest_text [])))
    by (split; reflexivity).
  specialize (H Hc eq_refl). vm_compute in H. discriminate H.
Qed.

(** * Further properties of the script *)

(** ** Preflight *)

Lemma external_fail e tool w f err :
  tool (fs w) = {| after := f; failure := Some err |} ->
  external e tool w = (Throw err, set_fs f (add_event e w)).
Proof. intros H. unfold external. cbn. now rewrite H. Qed.

Lemma main_preflight_Exit E opts w code w' :
  preflight E w = (Exit code, w') -> main E opts w = (Exit code, w').
Proof.
  intros H. unfold main, run, preamble.
  apply try_catch_Exit. apply bind_Exit. apply bind_Exit. exact H.
Qed.

(** X1: when [git --version] cannot be run, the process prints the git
    message and exits with 1 right after the banner: npm is not probed, no
    prompt is asked, nothing else happens. *)
Theorem git_missing_stops_the_run (E : Env) (opts : options) (w : world)
    (f : gmap string node) (err : error) :
  run_command E "git --version" None (fs w) = {| after := f; failure := Some err |} ->
  exists w',
    main E opts w = (Exit 1, w')
    /\ asked w' = asked w
    /\ trace w' = trace w ++
         [Console Log (figlet_BSV E);
          Console Log "Start building your BSV-powered app with ease! 🚀";
          ExecSync "git --version" None;
          Console Err "Git is not installed or not available in PATH. Please install Git and try again."].
Proof.
  intros Hgit. eexists. split; [| split].
  - apply main_preflight_Exit. unfold preflight.
    unfold bind at 1, console_log at 1, emit.
    unfold bind at 1, console_log at 1, emit.
    apply bind_Exit. unfold checkGitInstalled.
    erewrite try_catch_Throw by (apply external_fail; exact Hgit).
    reflexivity.
  - reflexivity.
  - cbn [trace set_fs add_event]. rewrite <- !app_assoc. reflexivity.
Qed.

Lemma git_missing_witness :
  exists w',
    main (Broken.env (Broken.everywhere "git --version") false false Demo.manifest_text [])
      (mkOptions false false true) Demo.start = (Exit 1, w')
    /\ asked w' = 0
    /\ trace w' =
         [Console Log "BSV";
          Console Log "Start building your BSV-powered app with ease! 🚀";
          ExecSync "git --version" None;
          Console Err "Git is not installed or not available in PATH. Please install Git and try again."].
Proof.
  apply (git_missing_stops_the_run
           (Broken.env (Broken.everywhere "git --version") false false Demo.manifest_text [])
           (mkOptions false false true) Demo.start Demo.disk
           (Error "Command failed: git --version")).
  reflexivity.
Defined.

(** X2: when git answers but [npm --version] cannot be run, the process
    prints the npm message and exits with 1 before any prompt. *)
Theorem npm_missing_stops_the_run (E : Env) (opts : options) (w : world)
    (f1 f2 : gmap string node) (err : error) :
  run_command E "git --version" None (fs w) = {| after := f1; failure := None |} ->
  run_command E "npm --version" None f1 = {| after := f2; failure := Some err |} ->
  exists w',
    main E opts w = (Exit 1, w')
    /\ asked w' = asked w
    /\ trace w' = trace w ++
         [Console Log (figlet_BSV E);
          Console Log "Start building your BSV-powered app with ease! 🚀";
          ExecSync "git --version" None;
          ExecSync "npm --version" None;
          Console Err "npm is not installed or not available in PATH. Please install Node.js and try again."].
Proof.
  intros Hgit Hnpm. eexists. split; [| split].
  - apply main_preflight_Exit. unfold preflight.
    unfold bind at 1, console_log at 1, emit.
    unfold bind at 1, console_log at 1, emit.
    unfold checkGitInstalled.
    erewrite bind_Return
      by (apply try_catch_Return; apply external_ok; exact Hgit).
    unfold checkNpmInstalled.
    erewrite try_catch_Throw by (apply external_fail; exact Hnpm).
    reflexivity.
  - reflexivity.
  - cbn [trace set_fs add_event]. rewrite <- !app_assoc. reflexivity.
Qed.

Lemma npm_missing_witness :
  exists w',
    main (Broken.env (Broken.everywhere "npm --version") false false Demo.manifest_text [])
      (mkOptions false false false) Demo.start = (Exit 1, w')
    /\ asked w' = 0
    /\ trace w' =
         [Console Log "BSV";
          Console Log "Start building your BSV-powered app with ease! 🚀";
          ExecSync "git --version" None;
          ExecSync "npm --version" None;
          Console Err "npm is not installed or not available in PATH. Please install Node.js and try again."].
Proof.
  apply (npm_missing_stops_the_run
           (Broken.env (Broken.everywhere "npm --version") false false Demo.manifest_text [])
           (mkOptions false false false) Demo.start Demo.disk Demo.disk
           (Error "Command failed: npm --version")); reflexivity.
Defined.

(** ** Failures of the clone and of the installs *)

(** X3: when the clone fails, the materializer prints the error of the
    git client and exits with 1; nothing is stripped, customized, installed
    or initialised, and the filesystem is the one the failed clone left. *)
Theorem clone_failure_is_fatal (E : Env) (opts : options) (req : request)
    (w : world) (f : gmap string node) (err : error) :
  let projectDir := projectDir_of E (projectName req) in
  let url := Obj.get templates (template req) in
  fs w !! projectDir = None ->
  run_clone E url projectDir (fs w) = {| after := f; failure := Some err |} ->
  exists w',
    materialize E opts req w = (Exit 1, w')
    /\ fs w' = f
    /\ trace w' = trace w ++
         [Console Log ("Cloning repository from " +:+ show url +:+ "...");
          GitClone url projectDir;
          Console Err ("Error cloning repository: " +:+ message err)].
Proof.
  intros projectDir url Hfree Hclone. eexists. split; [| split].
  - unfold materialize. fold projectDir url.
    unfold bind at 1, existsSync at 1. rewrite Hfree.
    unfold bind at 1, ret at 1.
    apply bind_Exit. unfold cloneTemplate.
    erewrite try_catch_Throw.
    2:{ unfold bind at 1, console_log at 1, emit.
        apply bind_Throw. unfold git_clone. apply external_fail. exact Hclone. }
    reflexivity.
  - reflexivity.
  - cbn [trace set_fs add_event]. rewrite <- !app_assoc. reflexivity.
Qed.

Lemma clone_failure_witness :
  exists w',
    materialize (Broken.env (fun _ _ => false) true false Demo.manifest_text [])
      (mkOptions false true false) (mkRequest Demo.meter "foo" "bar") Demo.start = (Exit 1, w')
    /\ fs w' = Demo.disk
    /\ trace w' =
         [Console Log "Cloning repository from https://github.com/p2ppsr/meter.git...";
          GitClone (Some "https://github.com/p2ppsr/meter.git") "/home/dev/foo";
          Console Err "Error cloning repository: fatal: unable to access the repository"].
Proof.
  apply (clone_failure_is_fatal
           (Broken.env (fun _ _ => false) true false Demo.manifest_text [])
           (mkOptions false true false) (mkRequest Demo.meter "foo" "bar") Demo.start
           Demo.disk (Error "fatal: unable to access the repository")); reflexivity.
Defined.

Lemma prefix_nil (s : string) : String.prefix "" s = true.
Proof. now destruct s. Qed.

(** A one-character pattern occurs in [a +:+ b] when it occurs in [a] or
    in [b]. *)
Lemma includes_char_append (c : ascii) (a b : string) :
  includes (String c "") (a +:+ b)
  = includes (String c "") a || includes (String c "") b.
Proof.
  induction a as [| x a IH]; [reflexivity |].
  rewrite append_cons. cbn [includes String.prefix].
  rewrite IH, !prefix_nil. now rewrite orb_assoc.
Qed.

(** Without a ['%'] in the directory, the failure line of [installInDir]
    is the plain one. *)
Lemma install_failure_line E dir msg :
  includes "%" dir = false ->
  format2 E ("Error installing dependencies in " +:+ dir +:+ ":") msg
  = "Error installing dependencies in " +:+ dir +:+ ": " +:+ msg.
Proof.
  intros Hdir. unfold format2.
  rewrite (includes_char_append "%" "Error installing dependencies in " (dir +:+ ":")).
  rewrite (includes_char_append "%" dir ":"), Hdir.
  cbn [orb]. change (includes "%" "Error installing dependencies in ") with false.
  change (includes "%" ":") with false. cbn [orb].
  now rewrite !append_assoc.
Qed.

Lemma installInDir_fails E dir w f err :
  is_Some (fs w !! path.join [dir; "package.json"]) ->
  run_command E "npm install" (Some dir) (fs w) = {| after := f; failure := Some err |} ->
  installInDir E dir w =
    (Exit 1,
     add_event (Console Err (format2 E ("Error installing dependencies in " +:+ dir +:+ ":")
                               (message err)))
       (set_fs f
          (add_event (ExecSync "npm install" (Some dir))
             (add_event (Console Log ("Installing dependencies in " +:+ dir +:+ "...")) w)))).
Proof.
  intros [n Hn] Hrun. unfold installInDir.
  unfold bind at 1, existsSync. rewrite Hn.
  erewrite try_catch_Throw.
  2:{ unfold bind at 1, console_log at 1, emit.
      apply bind_Throw. unfold execSync. apply external_fail. exact Hrun. }
  reflexivity.
Qed.

(** X4: when the install in the project root fails, the step prints the
    error line and exits with 1 at once: [frontend] and [backend] are not
    looked at, and the filesystem is the one the failed install left.  The
    error line is what the console makes of the format
    [Error installing dependencies in <dir>:] and the message: the two with
    a space between them when the directory holds no ['%']. *)
Theorem root_install_failure_is_fatal (E : Env) (projectDir : string) (w : world)
    (f : gmap string node) (err : error) :
  is_Some (fs w !! path.join [projectDir; "package.json"]) ->
  run_command E "npm install" (Some projectDir) (fs w) = {| after := f; failure := Some err |} ->
  exists w' line,
    installDependencies E projectDir w = (Exit 1, w')
    /\ fs w' = f
    /\ trace w' = trace w ++
         [Console Log ("Installing dependencies in " +:+ projectDir +:+ "...");
          ExecSync "npm install" (Some projectDir);
          Console Err line]
    /\ line = format2 E ("Error installing dependencies in " +:+ projectDir +:+ ":")
                (message err)
    /\ (includes "%" projectDir = false ->
        line = "Error installing dependencies in " +:+ projectDir +:+ ": " +:+ message err).
Proof.
  intros Hroot Hrun. eexists. eexists. split; [| split; [| split; [| split]]].
  - unfold installDependencies. apply bind_Exit.
    apply installInDir_fails; eassumption.
  - reflexivity.
  - cbn [trace set_fs add_event]. rewrite <- !app_assoc. reflexivity.
  - reflexivity.
  - apply install_failure_line.
Qed.

Lemma root_install_failure_witness :
  exists w' line,
    installDependencies
      (Broken.env (Broken.inside "npm install" "/home/dev/foo") false false Demo.manifest_text [])
      "/home/dev/foo" (Demo.project Demo.manifest_text) = (Exit 1, w')
    /\ fs w' = fs (Demo.project Demo.manifest_text)
    /\ trace w' = trace (Demo.project Demo.manifest_text) ++
         [Console Log ("Installing dependencies in " +:+ "/home/dev/foo" +:+ "...");
          ExecSync "npm install" (Some "/home/dev/foo");
          Console Err line]
    /\ line = format2
                (Broken.env (Broken.inside "npm install" "/home/dev/foo") false false
                   Demo.manifest_text [])
                ("Error installing dependencies in " +:+ "/home/dev/foo" +:+ ":")
                (message (Error "Command failed: npm install"))
    /\ (includes "%" "/home/dev/foo" = false ->
        line = "Error installing dependencies in " +:+ "/home/dev/foo" +:+ ": "
                 +:+ message (Error "Command failed: npm install")).
Proof.
  apply (root_install_failure_is_fatal
           (Broken.env (Broken.inside "npm install" "/home/dev/foo") false false
              Demo.manifest_text [])
           "/home/dev/foo" (Demo.project Demo.manifest_text)
           (fs (Demo.project Demo.manifest_text)) (Error "Command failed: npm install"));
    vm_compute; eauto.
Defined.

(** X5: when the root install succeeds and the one in [frontend] fails,
    the step prints the error line for [frontend] and exits with 1 without
    looking at [backend]; what the root install did is not undone ([f2] is
    [f1] as the failed install left it).  The error line is what the console
    makes of the format and the message: the two with a space between them
    when the directory holds no ['%']. *)
Theorem frontend_install_failure_is_fatal (E : Env) (projectDir : string) (w : world)
    (f1 f2 : gmap string node) (err : error) :
  let frontendDir := path.join [projectDir; "frontend"] in
  is_Some (fs w !! path.join [projectDir; "package.json"]) ->
  run_command E "npm install" (Some projectDir) (fs w) = {| after := f1; failure := None |} ->
  is_Some (f1 !! frontendDir) ->
  is_Some (f1 !! path.join [frontendDir; "package.json"]) ->
  run_command E "npm install" (Some frontendDir) f1 = {| after := f2; failure := Some err |} ->
  exists w' line,
    installDependencies E projectDir w = (Exit 1, w')
    /\ fs w' = f2
    /\ trace w' = trace w ++
         [Console Log ("Installing dependencies in " +:+ projectDir +:+ "...");
          ExecSync "npm install" (Some projectDir);
          Console Log ("Dependencies installed successfully in " +:+ projectDir +:+ ".");
          Console Log ("Installing dependencies in " +:+ frontendDir +:+ "...");
          ExecSync "npm install" (Some frontendDir);
          Console Err line]
    /\ line = format2 E ("Error installing dependencies in " +:+ frontendDir +:+ ":")
                (message err)
    /\ (includes "%" frontendDir = false ->
        line = "Error installing dependencies in " +:+ frontendDir +:+ ": " +:+ message err).
Proof.
  intros frontendDir Hroot Hrun1 [nf Hfront] Hfm Hrun2.
  eexists. eexists. split; [| split; [| split; [| split]]].
  - unfold installDependencies. fold frontendDir.
    erewrite bind_Return by (apply installInDir_installs; eassumption).
    unfold bind at 1, existsSync at 1. cbn [fs set_fs add_event]. rewrite Hfront.
    apply bind_Exit. apply installInDir_fails; eassumption.
  - reflexivity.
  - cbn [trace set_fs add_event]. rewrite <- !app_assoc. reflexivity.
  - reflexivity.
  - apply install_failure_line.
Qed.

Lemma frontend_install_failure_witness :
  exists w' line,
    installDependencies
      (Broken.env (Broken.inside "npm install" "/home/dev/foo/frontend") false false
         Demo.manifest_text [])
      "/home/dev/foo" (Demo.project Demo.manifest_text) = (Exit 1, w')
    /\ fs w' = <["/home/dev/foo/node_modules" := Dir]> (fs (Demo.project Demo.manifest_text))
    /\ trace w' = trace (Demo.project Demo.manifest_text) ++
         [Console Log ("Installing dependencies in " +:+ "/home/dev/foo" +:+ "...");
          ExecSync "npm install" (Some "/home/dev/foo");
          Console Log ("Dependencies installed successfully in " +:+ "/home/dev/foo" +:+ ".");
          Console Log ("Installing dependencies in " +:+ path.join ["/home/dev/foo"; "frontend"]
                         +:+ "...");
          ExecSync "npm install" (Some (path.join ["/home/dev/foo"; "frontend"]));
          Console Err line]
    /\ line = format2
                (Broken.env (Broken.inside "npm install" "/home/dev/foo/frontend") false false
                   Demo.manifest_text [])
                ("Error installing dependencies in "
                   +:+ path.join ["/home/dev/foo"; "frontend"] +:+ ":")
                (message (Error "Command failed: npm install"))
    /\ (includes "%" (path.join ["/home/dev/foo"; "frontend"]) = false ->
        line = "Error installing dependencies in "
                 +:+ path.join ["/home/dev/foo"; "frontend"] +:+ ": "
                 +:+ message (Error "Command failed: npm install")).
Proof.
  apply (frontend_install_failure_is_fatal
           (Broken.env (Broken.inside "npm install" "/home/dev/foo/frontend") false false
              Demo.manifest_text [])
           "/home/dev/foo" (Demo.project Demo.manifest_text)
           (<["/home/dev/foo/node_modules" := Dir]> (fs (Demo.project Demo.manifest_text)))
           (<["/home/dev/foo/node_modules" := Dir]> (fs (Demo.project Demo.manifest_text)))
           (Error "Command failed: npm install"));
    vm_compute; eauto.
Defined.

(** ** Where and how often [npm install] runs *)

Section Within.

Variable sel : event -> bool.

Lemma within_quiet {A} (m : M A) allowed :
  emits (fun e => negb (sel e)) m -> only_within sel allowed m.
Proof.
  intros Hm w. destruct (Hm w) as [evs [Ht Hp]]. exists evs. split; [exact Ht |].
  assert (Hnil : List.filter sel evs = []).
  { clear Ht. induction evs as [| e evs IH]; [reflexivity |].
    cbn in Hp. apply andb_true_iff in Hp as [He Hp].
    cbn. destruct (sel e); [discriminate |]. auto. }
  rewrite Hnil. apply sublist_nil_l.
Qed.

Lemma within_bind {A B} (m : M A) (k : A -> M B) l1 l2 :
  only_within sel l1 m -> (forall a, only_within sel l2 (k a)) ->
  only_within sel (l1 ++ l2) (bind m k).
Proof.
  intros Hm Hk w. unfold bind.
  destruct (Hm w) as [evs [Ht Hs]].
  destruct (m w) as [[a | code | e] w1]; cbn in *.
  - destruct (Hk a w1) as [evs' [Ht' Hs']].
    exists (evs ++ evs'). split.
    + rewrite Ht', Ht. now rewrite <- app_assoc.
    + rewrite List.filter_app. now apply sublist_app.
  - exists evs. split; [exact Ht |]. now apply sublist_inserts_r.
  - exists evs. split; [exact Ht |]. now apply sublist_inserts_r.
Qed.

End Within.

Lemma installs_within_installInDir E dir :
  only_within is_install [ExecSync "npm install" (Some dir)] (installInDir E dir).
Proof.
  intros w. unfold installInDir, bind at 1, existsSync.
  destruct (fs w !! path.join [dir; "package.json"]).
  - unfold try_catch, bind, console_log, console_error, emit, execSync, external.
    cbn. destruct (failure _); cbn; rewrite <- !app_assoc; cbn;
      eexists; (split; [reflexivity | cbn; reflexivity]).
  - eexists. split; [reflexivity |]. cbn. apply sublist_nil_l.
Qed.

(** X6: whatever the tree and the tools, the installation step starts
    [npm install] in the project root, in [frontend] and in [backend] at
    most once each, in that order, and nowhere else. *)
Theorem installs_only_in_the_three_directories (E : Env) (projectDir : string) (w : world) :
  exists evs,
    trace (installDependencies E projectDir w).2 = trace w ++ evs
    /\ sublist (List.filter is_install evs)
         [ExecSync "npm install" (Some projectDir);
          ExecSync "npm install" (Some (path.join [projectDir; "frontend"]));
          ExecSync "npm install" (Some (path.join [projectDir; "backend"]))].
Proof.
  revert w. unfold installDependencies.
  apply (within_bind is_install _ _ [_] [_; _]);
    [apply installs_within_installInDir | intros _].
  apply (within_bind is_install _ _ [] [_; _]);
    [apply within_quiet, emits_existsSync | intros frontend].
  apply (within_bind is_install _ _ [_] [_]).
  { destruct frontend; [apply installs_within_installInDir |].
    apply within_quiet, emits_ret. }
  intros _.
  apply (within_bind is_install _ _ [] [_]);
    [apply within_quiet, emits_existsSync | intros backend].
  destruct backend; [apply installs_within_installInDir |].
  apply within_quiet, emits_ret.
Qed.

(** ** What the flags switch off *)

Ltac unfold_script :=
  unfold main, run, preamble, preflight, materialize, checkGitInstalled,
    checkNpmInstalled, interaction, interaction_try, interaction_catch,
    cloneTemplate, customize, customizePackageJson, installDependencies,
    installInDir, execSync, git_clone, git_init, console_log, console_warn,
    console_error.

Lemma main_without_init E opts :
  gitInit opts = false -> emits (fun e => negb (is_init e)) (main E opts).
Proof. intros Hno. unfold_script. rewrite Hno. emits_all. Qed.

Lemma main_without_prompt E opts :
  yes opts = true -> emits (fun e => negb (is_prompt e)) (main E opts).
Proof. intros Hyes. unfold_script. rewrite Hyes. emits_all. Qed.

(** X7: without [--git-init], no run initialises a repository, however it
    ends. *)
Theorem no_init_without_the_flag (E : Env) (opts : options) (w : world) :
  gitInit opts = false ->
  exists evs,
    trace (main E opts w).2 = trace w ++ evs
    /\ forall dir, ~ In (GitInit dir) evs.
Proof.
  intros Hno. destruct (main_without_init E opts Hno w) as [evs [Ht Hp]].
  exists evs. split; [exact Ht |].
  intros dir. eapply forallb_not_In; [exact Hp | reflexivity].
Qed.

Lemma no_init_witness :
  exists evs,
    trace (main (Demo.answering Demo.manifest_text) (mkOptions false false false)
             Demo.start).2 = trace Demo.start ++ evs
    /\ forall dir, ~ In (GitInit dir) evs.
Proof.
  apply (no_init_without_the_flag (Demo.answering Demo.manifest_text)
           (mkOptions false false false) Demo.start).
  reflexivity.
Defined.

(** X8: with [--yes], the whole run asks no question, whatever the tools
    do and however it ends. *)
Theorem yes_asks_nothing (E : Env) (opts : options) (w : world) :
  yes opts = true ->
  exists evs,
    trace (main E opts w).2 = trace w ++ evs
    /\ forall name, ~ In (Prompt name) evs.
Proof.
  intros Hyes. destruct (main_without_prompt E opts Hyes w) as [evs [Ht Hp]].
  exists evs. split; [exact Ht |].
  intros name. eapply forallb_not_In; [exact Hp | reflexivity].
Qed.

Lemma yes_asks_nothing_witness :
  exists evs,
    trace (main (Demo.env Demo.manifest_text [Sigint]) (mkOptions false true true)
             Demo.start).2 = trace Demo.start ++ evs
    /\ forall name, ~ In (Prompt name) evs.
Proof.
  apply (yes_asks_nothing (Demo.env Demo.manifest_text [Sigint])
           (mkOptions false true true) Demo.start).
  reflexivity.
Defined.

(** ** The clone *)

Lemma cloneTemplate_within E url dir :
  only_within is_clone [GitClone url dir] (cloneTemplate E url dir).
Proof.
  intros w. unfold cloneTemplate, try_catch, bind, console_log, console_error, emit,
    git_clone, external.
  cbn. destruct (failure _); cbn; rewrite <- !app_assoc; cbn;
    eexists; (split; [reflexivity | cbn; reflexivity]).
Qed.

(** X9: a run of the materializer clones at most once, and the clone it
    invokes is that of the registry's entry for the chosen template into the
    resolved target directory. *)
Theorem clones_at_most_once (E : Env) (opts : options) (req : request) (w : world) :
  exists evs,
    trace (materialize E opts req w).2 = trace w ++ evs
    /\ sublist (List.filter is_clone evs)
         [GitClone (Obj.get templates (template req))
            (projectDir_of E (projectName req))].
Proof.
  revert w. unfold materialize.
  apply (within_bind is_clone _ _ [] [_]);
    [apply within_quiet, emits_existsSync | intros taken].
  apply (within_bind is_clone _ _ [] [_]).
  { apply within_quiet. unfold console_error. emits_all. }
  intros _.
  apply (within_bind is_clone _ _ [_] []); [apply cloneTemplate_within | intros _].
  apply within_quiet.
  unfold customize, customizePackageJson, installDependencies, installInDir,
    execSync, git_init, console_log, console_warn, console_error.
  emits_all.
Qed.

(** X10: when the chosen template is a label of the registry and the
    target is free, the clone is announced and invoked with the URL the
    registry configures for that label, and it is the only clone. *)
Theorem registry_label_clones_its_url (E : Env) (opts : options) (req : request)
    (w : world) (url : string) :
  In (template req, url) templates ->
  fs w !! projectDir_of E (projectName req) = None ->
  exists evs,
    trace (materialize E opts req w).2 =
      trace w ++ [Console Log ("Cloning repository from " +:+ url +:+ "...");
                  GitClone (Some url) (projectDir_of E (projectName req))] ++ evs
    /\ forall u dir, ~ In (GitClone u dir) evs.
Proof.
  intros Hin Hfree.
  pose proof (In_get _ _ _ templates_NoDup Hin) as Hget.
  assert (H : exists evs,
             trace (materialize E opts req w).2 =
               trace w ++ [Console Log ("Cloning repository from " +:+ url +:+ "...");
                           GitClone (Some url) (projectDir_of E (projectName req))] ++ evs
             /\ forallb (fun e => negb (is_clone e)) evs = true).
  { unfold materialize. rewrite Hget.
    unfold bind at 1, existsSync at 1. rewrite Hfree.
    unfold bind at 1, ret at 1.
    apply after_bind; [apply (cloneTemplate_trace E (Some url)) |].
    intros _.
    unfold customize, customizePackageJson, installDependencies, installInDir,
      execSync, git_init, console_log, console_error, console_warn.
    emits_all. }
  destruct H as [evs [Ht Hp]]. exists evs. split; [exact Ht |].
  intros u dir. eapply forallb_not_In; [exact Hp | reflexivity].
Qed.

Lemma registry_label_witness :
  exists evs,
    trace (materialize (Demo.answering Demo.manifest_text) (mkOptions true false false)
             (mkRequest Demo.meter "foo" "bar") Demo.start).2 =
      trace Demo.start
        ++ [Console Log "Cloning repository from https://github.com/p2ppsr/meter.git...";
            GitClone (Some "https://github.com/p2ppsr/meter.git")
              (projectDir_of (Demo.answering Demo.manifest_text) "foo")] ++ evs
    /\ forall u dir, ~ In (GitClone u dir) evs.
Proof.
  apply (registry_label_clones_its_url (Demo.answering Demo.manifest_text)
           (mkOptions true false false) (mkRequest Demo.meter "foo" "bar") Demo.start
           "https://github.com/p2ppsr/meter.git").
  - cbn. now left.
  - reflexivity.
Defined.

(** ** Exit codes *)

Lemma exits_01_ret {A} (a : A) : exits_01 (ret a).
Proof. intros w. exact I. Qed.

Lemma exits_01_throw {A} e : exits_01 (@throw A e).
Proof. intros w. exact I. Qed.

Lemma exits_01_exit0 {A} : exits_01 (@process_exit A 0).
Proof. intros w. now left. Qed.

Lemma exits_01_exit1 {A} : exits_01 (@process_exit A 1).
Proof. intros w. now right. Qed.

Lemma exits_01_emit e : exits_01 (emit e).
Proof. intros w. exact I. Qed.

Lemma exits_01_external e tool : exits_01 (external e tool).
Proof. intros w. unfold external. now destruct (failure _). Qed.

Lemma exits_01_existsSync p : exits_01 (existsSync p).
Proof. intros w. exact I. Qed.

Lemma exits_01_removeSync p : exits_01 (removeSync p).
Proof. intros w. exact I. Qed.

Lemma exits_01_writeJsonSync p v n : exits_01 (writeJsonSync p v n).
Proof. intros w. exact I. Qed.

Lemma exits_01_readJsonSync E p : exits_01 (readJsonSync E p).
Proof.
  intros w. unfold readJsonSync.
  destruct (fs w !! p) as [[| text] |]; [| destruct (JSON_parse E text) |]; exact I.
Qed.

Lemma exits_01_bind {A B} (m : M A) (k : A -> M B) :
  exits_01 m -> (forall a, exits_01 (k a)) -> exits_01 (bind m k).
Proof.
  intros Hm Hk w. unfold bind. specialize (Hm w).
  destruct (m w) as [[a | code | e] w1]; cbn in *; [apply Hk | exact Hm | exact I].
Qed.

Lemma exits_01_try_catch {A} (m : M A) h :
  exits_01 m -> (forall e, exits_01 (h e)) -> exits_01 (try_catch m h).
Proof.
  intros Hm Hh w. unfold try_catch. specialize (Hm w).
  destruct (m w) as [[a | code | e] w1]; cbn in *; [exact I | exact Hm | apply Hh].
Qed.

Lemma exits_01_if {A} (b : bool) (m1 m2 : M A) :
  exits_01 m1 -> exits_01 m2 -> exits_01 (if b then m1 else m2).
Proof. now destruct b. Qed.

Lemma exits_01_assign_all c : forall target, exits_01 (assign_all target c).
Proof.
  induction c as [| [key v] rest IH]; intros target; cbn.
  - apply exits_01_ret.
  - apply exits_01_bind; [| auto].
    destruct target; cbn; auto using @exits_01_ret, @exits_01_throw.
Qed.

Lemma exits_01_inquirer_prompt E q : exits_01 (inquirer_prompt E q).
Proof.
  intros w. unfold inquirer_prompt.
  destruct (user E (asked w)); cbn; [exact I | exact I | now left].
Qed.

Ltac exits_step :=
  first
    [ apply exits_01_ret | apply exits_01_throw | apply exits_01_exit0
    | apply exits_01_exit1 | apply exits_01_emit | apply exits_01_external
    | apply exits_01_existsSync | apply exits_01_removeSync
    | apply exits_01_writeJsonSync | apply exits_01_readJsonSync
    | apply exits_01_assign_all | apply exits_01_inquirer_prompt
    | apply exits_01_if
    | apply exits_01_bind; [| intros ?]
    | apply exits_01_try_catch; [| intros ?] ].

Lemma run_exits_01 E opts : exits_01 (run E opts).
Proof. unfold_script. repeat exits_step. Qed.

(** X11: whatever the environment, the flags and the user do, no error
    leaves [main]: the process ends by returning from [run] (status 0) or by
    [process.exit] with 0 or 1. *)
Theorem exit_status_is_0_or_1 (E : Env) (opts : options) (w : world) :
  (exists w', main E opts w = (Return tt, w')
              \/ main E opts w = (Exit 0, w')
              \/ main E opts w = (Exit 1, w'))
  /\ (exit_status (main E opts w).1 = 0%Z \/ exit_status (main E opts w).1 = 1%Z).
Proof.
  assert (H : exists w', main E opts w = (Return tt, w')
                         \/ main E opts w = (Exit 0, w')
                         \/ main E opts w = (Exit 1, w')).
  { unfold main, try_catch. pose proof (run_exits_01 E opts w) as Hrun.
    destruct (run E opts w) as [[[] | code | e] w1]; cbn in *.
    - exists w1. now left.
    - exists w1. destruct Hrun as [-> | ->]; auto.
    - eexists. right. right. reflexivity. }
  split; [exact H |].
  destruct H as [w' [-> | [-> | ->]]]; cbn; auto.
Qed.

(** ** The completion summary *)

Lemma finishes_bind {A B} req (m : M A) (k : A -> M B) :
  emits (fun e => negb (is_done e)) m -> (forall a, finishes req (k a)) ->
  finishes req (bind m k).
Proof.
  intros Hm Hk w. unfold bind.
  destruct (Hm w) as [evs [Ht Hp]].
  destruct (m w) as [[a | code | e] w1]; cbn in *; try (exists evs; now split).
  destruct (Hk a w1) as [evs' [Ht' Hc]].
  exists (evs ++ evs'). split.
  - rewrite Ht', Ht. now rewrite <- app_assoc.
  - destruct ((k a w1).1).
    + destruct Hc as [before ->]. exists (evs ++ before). now rewrite <- app_assoc.
    + rewrite forallb_app. now rewrite Hp, Hc.
    + rewrite forallb_app. now rewrite Hp, Hc.
Qed.

Lemma finishes_completion req :
  finishes req
    (console_log "✅ All done! Start coding with:";;
     console_log ("cd " +:+ projectName req);;
     console_log "npm start").
Proof.
  intros w. exists (completion req). split.
  - cbn. now rewrite <- !app_assoc.
  - cbn. now exists [].
Qed.

Lemma materialize_finishes E opts req : finishes req (materialize E opts req).
Proof.
  unfold materialize.
  repeat (apply finishes_bind;
          [ solve [ unfold cloneTemplate, customize, customizePackageJson,
                      installDependencies, installInDir, execSync, git_clone,
                      git_init, console_log, console_warn, console_error;
                    emits_all ]
          | intros ? ]).
  apply finishes_completion.
Qed.

(** X12: the materializer prints the completion summary (the success line,
    [cd <projectName>], [npm start]) as its last three lines exactly when
    it returns; when it exits or throws, the success line is not among what
    it printed. *)
Theorem completion_summary_iff_success (E : Env) (opts : options) (req : request)
    (w : world) :
  exists evs,
    trace (materialize E opts req w).2 = trace w ++ evs
    /\ match (materialize E opts req w).1 with
       | Return _ =>
           exists before,
             evs = before ++
               [Console Log "✅ All done! Start coding with:";
                Console Log ("cd " +:+ projectName req);
                Console Log "npm start"]
       | _ => ~ In (Console Log "✅ All done! Start coding with:") evs
       end.
Proof.
  destruct (materialize_finishes E opts req w) as [evs [Ht Hc]].
  exists evs. split; [exact Ht |].
  destruct ((materialize E opts req w).1); [exact Hc | |];
    (eapply forallb_not_In; [exact Hc | reflexivity]).
Qed.

(** ** The interactive prompts *)

(** X13: in interactive mode with three answers, the request holds them
    as template, project name and author; exactly the three questions are
    asked, in the order [templateChoice], [projectNameInput],
    [authorNameInput], and the filesystem is not touched. *)
Theorem three_answers_make_the_request (E : Env) (opts : options) (w : world)
    (a b c : string) :
  yes opts = false ->
  user E (asked w) = Answer a ->
  user E (asked w + 1) = Answer b ->
  user E (asked w + 2) = Answer c ->
  exists w',
    interaction E opts w
      = (Return {| template := a; projectName := b; authorName := c |}, w')
    /\ fs w' = fs w
    /\ asked w' = asked w + 3
    /\ trace w' = trace w ++
         [Prompt "templateChoice"; Prompt "projectNameInput"; Prompt "authorNameInput"].
Proof.
  intros Hyes Ha Hb Hc.
  rewrite Nat.add_1_r in Hb. replace (asked w + 2) with (S (S (asked w))) in Hc by lia.
  eexists. split; [| split; [| split]].
  - unfold interaction, interaction_try. rewrite Hyes.
    erewrite try_catch_bind_Return by (apply inquirer_prompt_Answer; exact Ha).
    erewrite try_catch_bind_Return by (apply inquirer_prompt_Answer; exact Hb).
    erewrite try_catch_bind_Return by (apply inquirer_prompt_Answer; exact Hc).
    reflexivity.
  - reflexivity.
  - cbn. lia.
  - cbn. rewrite <- !app_assoc. reflexivity.
Qed.

Lemma three_answers_witness :
  exists w',
    interaction (Demo.answering Demo.manifest_text) (mkOptions false false false) Demo.start
      = (Return {| template := Demo.meter; projectName := "foo"; authorName := "bar" |}, w')
    /\ fs w' = fs Demo.start
    /\ asked w' = asked Demo.start + 3
    /\ trace w' = trace Demo.start ++
         [Prompt "templateChoice"; Prompt "projectNameInput"; Prompt "authorNameInput"].
Proof.
  apply (three_answers_make_the_request (Demo.answering Demo.manifest_text)
           (mkOptions false false false) Demo.start Demo.meter "foo" "bar");
    reflexivity.
Defined.

Lemma prefix_inv (t s : string) :
  String.prefix t s = true -> exists b, s = t +:+ b.
Proof.
  revert s. induction t as [| x t IH]; intros s H.
  - exists s. reflexivity.
  - destruct s as [| y s]; [discriminate H |].
    cbn [String.prefix] in H. destruct (ascii_dec x y) as [-> | Hne]; [| discriminate H].
    destruct (IH s H) as [b ->]. exists b. reflexivity.
Qed.

(** [includes t s] holds exactly when [t] occurs somewhere in [s]. *)
Lemma includes_spec (t s : string) :
  includes t s = true <-> exists a b, s = a +:+ t +:+ b.
Proof.
  split.
  - induction s as [| x s IH]; cbn [includes]; intros H.
    + rewrite orb_false_r in H. destruct (prefix_inv _ _ H) as [b Hb].
      exists "", b. exact Hb.
    + apply orb_true_iff in H as [H | H].
      * destruct (prefix_inv _ _ H) as [b Hb]. exists "", b. exact Hb.
      * destruct (IH H) as [a [b ->]]. exists (String x a), b. reflexivity.
  - intros [a [b ->]]. induction a as [| x a IH].
    + change ("" +:+ t +:+ b) with (t +:+ b).
      destruct (t +:+ b) eqn:Heq; cbn [includes]; rewrite <- ?Heq;
        rewrite prefix_append; reflexivity.
    + rewrite append_cons. cbn [includes]. rewrite IH. apply orb_true_r.
Qed.

(** X14: how the [catch] block answers an error [e] of the first prompt.
    The process exits with 0 after one line: the rendering complaint on
    stderr when [e] is a TTY error, whatever its message; otherwise the
    farewell on stdout when the message contains the forced-close phrase
    anywhere; otherwise the generic complaint with the message on stderr. *)
Theorem prompt_error_is_classified (E : Env) (opts : options) (w : world) (e : error) :
  yes opts = false ->
  user E (asked w) = Reject e ->
  exists line w',
    interaction E opts w = (Exit 0, w')
    /\ trace w' = trace w ++ [Prompt "templateChoice"; line]
    /\ (isTtyError e = true ->
        line = Console Err "❌ Prompt could not be rendered in this environment.")
    /\ (isTtyError e = false ->
        (exists a b, message e = a +:+ "User force closed the prompt" +:+ b) ->
        line = Console Log (newline +:+ "🚪 Goodbye!"))
    /\ (isTtyError e = false ->
        (forall a b, message e <> a +:+ "User force closed the prompt" +:+ b) ->
        line = Console Err ("❌ An unexpected error occurred: " +:+ message e)).
Proof.
  intros Hyes He.
  set (line := if isTtyError e then
                 Console Err "❌ Prompt could not be rendered in this environment."
               else if includes "User force closed the prompt" (message e) then
                 Console Log (newline +:+ "🚪 Goodbye!")
               else Console Err ("❌ An unexpected error occurred: " +:+ message e)).
  exists line, (add_event line (next_prompt (add_event (Prompt "templateChoice") w))).
  subst line. split; [| split].
  - unfold interaction, interaction_try. rewrite Hyes.
    erewrite try_catch_Throw.
    2:{ apply bind_Throw. unfold inquirer_prompt. rewrite He. reflexivity. }
    unfold interaction_catch.
    destruct (isTtyError e); [| destruct (includes _ _)]; reflexivity.
  - destruct (isTtyError e); [| destruct (includes _ _)];
      cbn; rewrite <- !app_assoc; reflexivity.
  - destruct (isTtyError e).
    + split; [reflexivity | split; discriminate].
    + split; [discriminate |].
      destruct (includes "User force closed the prompt" (message e)) eqn:Hinc.
      * split; [reflexivity |].
        intros _ Hnot. apply includes_spec in Hinc as [a [b Hab]].
        now destruct (Hnot a b).
      * split; [| reflexivity].
        intros _ Hex. apply includes_spec in Hex. congruence.
Qed.

Lemma prompt_error_witness :
  exists line w',
    interaction (Demo.env Demo.manifest_text
                   [Reject (Error "User force closed the prompt with 0 null")])
      (mkOptions false false false) Demo.start = (Exit 0, w')
    /\ trace w' = trace Demo.start ++ [Prompt "templateChoice"; line]
    /\ (isTtyError (Error "User force closed the prompt with 0 null") = true ->
        line = Console Err "❌ Prompt could not be rendered in this environment.")
    /\ (isTtyError (Error "User force closed the prompt with 0 null") = false ->
        (exists a b, message (Error "User force closed the prompt with 0 null")
                     = a +:+ "User force closed the prompt" +:+ b) ->
        line = Console Log (newline +:+ "🚪 Goodbye!"))
    /\ (isTtyError (Error "User force closed the prompt with 0 null") = false ->
        (forall a b, message (Error "User force closed the prompt with 0 null")
                     <> a +:+ "User force closed the prompt" +:+ b) ->
        line = Console Err ("❌ An unexpected error occurred: "
                              +:+ message (Error "User force closed the prompt with 0 null"))).
Proof.
  apply (prompt_error_is_classified
           (Demo.env Demo.manifest_text
              [Reject (Error "User force closed the prompt with 0 null")])
           (mkOptions false false false) Demo.start
           (Error "User force closed the prompt with 0 null"));
    reflexivity.
Defined.

(** ** More on the metadata customization *)

Lemma keys_set {A} (o : list (string * A)) k v :
  Obj.keys (Obj.set o k v) = if has_key o k then Obj.keys o else Obj.keys o ++ [k].
Proof.
  unfold has_key. induction o as [| [k' v'] rest IH]; [reflexivity |].
  cbn [Obj.set Obj.keys map fst existsb].
  rewrite (String.eqb_sym k k').
  destruct (String.eqb_spec k' k) as [-> | Hne]; cbn [orb].
  - reflexivity.
  - cbn [map fst]. fold (Obj.keys (Obj.set rest k v)). rewrite IH.
    fold (Obj.keys rest). now destruct (existsb (String.eqb k) (Obj.keys rest)).
Qed.

Lemma has_key_In {A} (o : list (string * A)) k :
  has_key o k = true <-> In k (Obj.keys o).
Proof.
  unfold has_key. rewrite existsb_exists. split.
  - intros [x [Hin Heq]]. apply String.eqb_eq in Heq. now subst.
  - intros Hin. exists k. split; [exact Hin | apply String.eqb_refl].
Qed.

Lemma has_key_set_other {A} (o : list (string * A)) k v k0 :
  k0 <> k -> has_key (Obj.set o k v) k0 = has_key o k0.
Proof.
  intros Hne. unfold has_key. rewrite keys_set.
  destruct (has_key o k); [reflexivity |].
  rewrite existsb_app. cbn.
  destruct (String.eqb_spec k0 k); [congruence |]. now rewrite !orb_false_r.
Qed.

Lemma NoDup_keys_set {A} (o : list (string * A)) k v :
  List.NoDup (Obj.keys o) -> List.NoDup (Obj.keys (Obj.set o k v)).
Proof.
  intros Hnd. rewrite keys_set. destruct (has_key o k) eqn:Hk; [exact Hnd |].
  apply List.NoDup_app; [exact Hnd | repeat constructor; intros [] |].
  intros x Hx [<- | []]. apply has_key_In in Hx. congruence.
Qed.

Lemma customized_keys props name author :
  let c := customizations_of name author in
  let props' := apply_customizations props c in
  Obj.keys props' =
    Obj.keys props ++ List.filter (fun k => negb (has_key props k)) (Obj.keys c)
  /\ (List.NoDup (Obj.keys props) -> List.NoDup (Obj.keys props')).
Proof.
  unfold customizations_of, apply_customizations.
  destruct (nonempty name), (nonempty author).
  - change (Obj.keys (Obj.set (Obj.set props "name" (JStr name)) "author" (JStr author))
            = Obj.keys props ++
                List.filter (fun k => negb (has_key props k)) ["name"; "author"]
            /\ (List.NoDup (Obj.keys props) ->
                List.NoDup (Obj.keys (Obj.set (Obj.set props "name" (JStr name))
                                        "author" (JStr author))))).
    split; [| auto using @NoDup_keys_set].
    rewrite !keys_set, has_key_set_other by discriminate.
    cbn [List.filter].
    destruct (has_key props "name"), (has_key props "author"); cbn [negb];
      rewrite <- ?app_assoc, ?app_nil_r; reflexivity.
  - change (Obj.keys (Obj.set props "name" (JStr name))
            = Obj.keys props ++ List.filter (fun k => negb (has_key props k)) ["name"]
            /\ (List.NoDup (Obj.keys props) ->
                List.NoDup (Obj.keys (Obj.set props "name" (JStr name))))).
    split; [| auto using @NoDup_keys_set].
    rewrite keys_set. cbn [List.filter].
    destruct (has_key props "name"); cbn [negb]; rewrite ?app_nil_r; reflexivity.
  - change (Obj.keys (Obj.set props "author" (JStr author))
            = Obj.keys props ++ List.filter (fun k => negb (has_key props k)) ["author"]
            /\ (List.NoDup (Obj.keys props) ->
                List.NoDup (Obj.keys (Obj.set props "author" (JStr author))))).
    split; [| auto using @NoDup_keys_set].
    rewrite keys_set. cbn [List.filter].
    destruct (has_key props "author"); cbn [negb]; rewrite ?app_nil_r; reflexivity.
  - cbn. rewrite app_nil_r. auto.
Qed.

(** X15: the rewritten manifest keeps the members of the old one in their
    order; [name] and [author], when they are set and were missing, are
    appended in that order; and no member is duplicated.  With an empty
    project name and author the members are the old ones, yet the file is
    still rewritten. *)
Theorem customize_keeps_member_order (E : Env) (projectDir : string) (req : request)
    (w : world) (text : string) (props : list (string * json)) :
  let manifest := path.join [projectDir; "package.json"] in
  let c := customizations_of (projectName req) (authorName req) in
  fs w !! manifest = Some (File text) ->
  JSON_parse E text = inl (JObj props) ->
  exists props' w',
    customize E projectDir req w = (Return tt, w')
    /\ fs w' = <[manifest := File (JSON.stringify (JObj props') 2 +:+ newline)]> (fs w)
    /\ Obj.keys props' =
         Obj.keys props ++ List.filter (fun k => negb (has_key props k)) (Obj.keys c)
    /\ (List.NoDup (Obj.keys props) -> List.NoDup (Obj.keys props'))
    /\ (c = [] -> props' = props).
Proof.
  intros manifest c Hfile Hparse.
  pose proof (customized_keys props (projectName req) (authorName req)) as Hk.
  cbv zeta in Hk. destruct Hk as [Hkeys Hnd].
  eexists. eexists. split.
  - apply (customize_object E projectDir req w text props Hfile Hparse).
  - split; [reflexivity |]. split; [exact Hkeys |]. split; [exact Hnd |].
    intros Hc. subst c. now rewrite Hc.
Qed.

Lemma customize_order_witness :
  exists props' w',
    customize (Demo.env Demo.manifest_text []) "/home/dev/foo"
      (mkRequest Demo.meter "foo" "bar") (Demo.project Demo.manifest_text) = (Return tt, w')
    /\ fs w' = <["/home/dev/foo/package.json" :=
                  File (JSON.stringify (JObj props') 2 +:+ newline)]>
                 (fs (Demo.project Demo.manifest_text))
    /\ Obj.keys props' = ["name"; "version"] ++ ["author"]
    /\ (List.NoDup ["name"; "version"] -> List.NoDup (Obj.keys props'))
    /\ (customizations_of "foo" "bar" = [] ->
        props' = [("name", JStr "x"); ("version", JStr "1.0.0")]).
Proof.
  apply (customize_keeps_member_order (Demo.env Demo.manifest_text []) "/home/dev/foo"
           (mkRequest Demo.meter "foo" "bar") (Demo.project Demo.manifest_text)
           Demo.manifest_text [("name", JStr "x"); ("version", JStr "1.0.0")]);
    reflexivity.
Defined.

(** X16: a manifest that parses to [null] makes the first assignment of the
    loop throw a [TypeError] naming the property; the step leaves the world as
    it was, nothing being written.  With nothing to assign there is no
    error. *)
Theorem null_manifest_throws (E : Env) (projectDir : string) (req : request)
    (w : world) (text : string) :
  let manifest := path.join [projectDir; "package.json"] in
  fs w !! manifest = Some (File text) ->
  JSON_parse E text = inl JNull ->
  customizations_of (projectName req) (authorName req) <> [] ->
  customize E projectDir req w =
    (Throw (Error ("Cannot set properties of null (setting '"
                     +:+ (if nonempty (projectName req) then "name" else "author")
                     +:+ "')")), w).
Proof.
  intros manifest Hfile Hparse Hsome.
  unfold customize, customizePackageJson. fold manifest.
  unfold bind at 1, existsSync. rewrite Hfile.
  unfold bind at 1, readJsonSync. rewrite Hfile, Hparse.
  unfold customizations_of in *.
  destruct (nonempty (projectName req)), (nonempty (authorName req));
    try reflexivity.
  now destruct Hsome.
Qed.

Lemma null_manifest_witness :
  customize (Broken.reading []) "/home/dev/foo"
    (mkRequest Demo.meter "foo" "") (Demo.project "null")
  = (Throw (Error "Cannot set properties of null (setting 'name')"), Demo.project "null").
Proof.
  apply (null_manifest_throws (Broken.reading []) "/home/dev/foo"
           (mkRequest Demo.meter "foo" "") (Demo.project "null") "null");
    [reflexivity | reflexivity | discriminate].
Defined.

Lemma assign_all_dropped (c : list (string * json)) (v : json) (w : world) :
  not_assignable v = true -> assign_all v c w = (Return v, w).
Proof.
  intros Hv. induction c as [| [key x] rest IH]; [reflexivity |].
  cbn [assign_all]. unfold bind.
  destruct v; try discriminate Hv; cbn; exact IH.
Qed.

(** X17: a manifest that parses to an array or to a primitive takes no
    property: the step succeeds, the customizations are lost, and the file is
    rewritten with the 2-space serialisation of the value it held. *)
Theorem non_object_manifest_loses_customizations (E : Env) (projectDir : string)
    (req : request) (w : world) (text : string) (v : json) :
  let manifest := path.join [projectDir; "package.json"] in
  fs w !! manifest = Some (File text) ->
  JSON_parse E text = inl v ->
  not_assignable v = true ->
  exists w',
    customize E projectDir req w = (Return tt, w')
    /\ fs w' = <[manifest := File (JSON.stringify v 2 +:+ newline)]> (fs w)
    /\ trace w' = trace w ++
         [WriteFile manifest (JSON.stringify v 2 +:+ newline);
          Console Log ("Modified package.json: " +:+ JSON.stringify v 2)].
Proof.
  intros manifest Hfile Hparse Hv. eexists. split; [| split].
  - unfold customize, customizePackageJson. fold manifest.
    unfold bind at 1, existsSync. rewrite Hfile.
    unfold bind at 1, readJsonSync. rewrite Hfile, Hparse.
    unfold bind at 1. rewrite (assign_all_dropped _ v w Hv).
    reflexivity.
  - reflexivity.
  - cbn [trace set_fs add_event]. rewrite <- !app_assoc. reflexivity.
Qed.

Lemma non_object_manifest_witness :
  exists w',
    customize (Broken.reading []) "/home/dev/foo"
      (mkRequest Demo.meter "foo" "bar") (Demo.project "[1]") = (Return tt, w')
    /\ fs w' = <["/home/dev/foo/package.json" :=
                  File ("[" +:+ newline +:+ "  1" +:+ newline +:+ "]" +:+ newline)]>
                 (fs (Demo.project "[1]"))
    /\ trace w' =
         [WriteFile "/home/dev/foo/package.json"
            ("[" +:+ newline +:+ "  1" +:+ newline +:+ "]" +:+ newline);
          Console Log ("Modified package.json: [" +:+ newline +:+ "  1" +:+ newline +:+ "]")].
Proof.
  apply (non_object_manifest_loses_customizations (Broken.reading []) "/home/dev/foo"
           (mkRequest Demo.meter "foo" "bar") (Demo.project "[1]") "[1]" (JArr [JNum "1"]));
    reflexivity.
Defined.

(** ** More on the target directory *)

Lemma nonempty_absolute (p : string) : path.isAbsolute p = true -> nonempty p = true.
Proof. destruct p; [discriminate | reflexivity]. Qed.

(** The shape of every resolved target: a slash, then the normalised
    segments of what was put together. *)
Lemma resolve_shape (cwd name : string) :
  path.isAbsolute cwd = true ->
  exists joined,
    path.resolve cwd [cwd; name]
    = "/" +:+ String.concat "/" (path.normalizeSegs false [] (path.segments joined)).
Proof.
  intros Habs. pose proof (nonempty_absolute _ Habs) as Hc.
  unfold path.resolve. cbn [rev app fold_left]. unfold path.resolve_step.
  destruct (nonempty name); cbn [negb].
  - destruct (path.isAbsolute name); cbn [negb].
    + eexists. reflexivity.
    + rewrite Hc. cbn [negb]. rewrite Habs. cbn [negb]. eexists. reflexivity.
  - rewrite Hc. cbn [negb]. rewrite Habs. cbn [negb]. eexists. reflexivity.
Qed.

(** X18: whatever the project name (relative, absolute, with dots, even
    empty), the target directory is an absolute path as soon as the working
    directory is one. *)
Theorem target_is_absolute (E : Env) (name : string) :
  path.isAbsolute (process_cwd E) = true ->
  path.isAbsolute (projectDir_of E name) = true.
Proof.
  intros Habs. unfold projectDir_of.
  destruct (resolve_shape _ name Habs) as [joined ->]. apply prefix_slash.
Qed.

Lemma target_is_absolute_witness :
  path.isAbsolute (projectDir_of (Demo.env Demo.manifest_text []) "../../../up/./x/") = true.
Proof.
  apply (target_is_absolute (Demo.env Demo.manifest_text []) "../../../up/./x/").
  reflexivity.
Defined.

Lemma filter_none_kept (l : list string) :
  forallb (fun seg => negb (kept seg)) l = true -> List.filter kept l = [].
Proof.
  induction l as [| seg l IH]; [reflexivity |].
  cbn. intros H. apply andb_true_iff in H as [Hs Hl].
  destruct (kept seg); [discriminate | auto].
Qed.

Lemma materialize_collides E opts req w :
  is_Some (fs w !! projectDir_of E (projectName req)) ->
  (materialize E opts req w).1 = Exit 1.
Proof.
  intros [n Hn]. unfold materialize, bind at 1, existsSync at 1. rewrite Hn.
  reflexivity.
Qed.

(** X19: a project name made only of ["."] and empty segments (such as
    ["."] or ["./"]) passes the validation but names the working directory
    itself; with the working directory on the filesystem, the run ends in
    the collision exit. *)
Theorem dot_name_is_the_working_directory (E : Env) (opts : options) (req : request)
    (w : world) :
  path.is_cwd (process_cwd E) ->
  validate_projectName (projectName req) = inl true ->
  path.isAbsolute (projectName req) = false ->
  forallb (fun seg => negb (kept seg)) (path.segments (projectName req)) = true ->
  projectDir_of E (projectName req) = process_cwd E
  /\ (is_Some (fs w !! process_cwd E) -> (materialize E opts req w).1 = Exit 1).
Proof.
  intros [Habs Hfix] Hvalid Hrel Hdots.
  assert (Hname : nonempty (projectName req) = true).
  { unfold validate_projectName in Hvalid. now destruct (nonempty (projectName req)). }
  assert (Hno : ~ In ".." (path.segments (projectName req))).
  { intros Hin. rewrite forallb_forall in Hdots. specialize (Hdots _ Hin).
    discriminate Hdots. }
  assert (Hdir : projectDir_of E (projectName req) = process_cwd E).
  { unfold projectDir_of. rewrite (resolve_relative _ _ Habs Hname Hrel).
    rewrite (resolve_cwd _ Habs) in Hfix.
    rewrite normalizeSegs_app, normalizeSegs_plain.
    2:{ intros Hin. apply in_app_or in Hin as [Hin | [Hin | []]];
          [now apply Hno | discriminate Hin]. }
    rewrite rev_involutive, List.filter_app, (filter_none_kept _ Hdots).
    cbn [List.filter kept String.eqb orb negb app]. rewrite app_nil_r. exact Hfix. }
  split; [exact Hdir |].
  intros Hcwd. apply materialize_collides. now rewrite Hdir.
Qed.

Lemma dot_name_witness :
  projectDir_of (Demo.env Demo.manifest_text []) "./" = "/home/dev"
  /\ (is_Some (fs Demo.start !! "/home/dev") ->
      (materialize (Demo.env Demo.manifest_text []) (mkOptions false false false)
         (mkRequest Demo.meter "./" "") Demo.start).1 = Exit 1).
Proof.
  apply (dot_name_is_the_working_directory (Demo.env Demo.manifest_text [])
           (mkOptions false false false) (mkRequest Demo.meter "./" "") Demo.start).
  - split; reflexivity.
  - reflexivity.
  - reflexivity.
  - reflexivity.
Defined.

(** ** The footprint of the materializer *)

Ltac footprint_side :=
  intros; cbn [in_footprint]; rewrite ?String.eqb_refl, ?orb_true_r; reflexivity.

Ltac footprint_step :=
  first
    [ apply emits_ret | apply emits_exit | apply emits_throw
    | apply emits_existsSync | apply emits_readJsonSync | apply emits_assign_all
    | apply emits_emit; footprint_side
    | apply emits_external; footprint_side
    | apply emits_writeJsonSync; footprint_side
    | apply emits_removeSync; footprint_side
    | apply emits_if
    | apply emits_bind; [| intros ?]
    | apply emits_try_catch; [| intros ?] ].

Lemma materialize_footprint E opts req :
  emits (in_footprint (projectDir_of E (projectName req))) (materialize E opts req).
Proof.
  unfold materialize, cloneTemplate, customize, customizePackageJson,
    installDependencies, installInDir, execSync, git_clone, git_init,
    console_log, console_warn, console_error.
  repeat footprint_step.
Qed.

(** X20: whatever happens, the materializer removes nothing but the
    [.git] of the target, writes nothing but the target's [package.json],
    clones into and initialises only the target, and starts no subprocess
    other than [npm install] in the target, its [frontend] or its
    [backend]. *)
Theorem materializer_stays_on_target (E : Env) (opts : options) (req : request)
    (w : world) :
  let projectDir := projectDir_of E (projectName req) in
  exists evs,
    trace (materialize E opts req w).2 = trace w ++ evs
    /\ (forall p, In (RemoveSync p) evs -> p = path.join [projectDir; ".git"])
    /\ (forall p text, In (WriteFile p text) evs -> p = path.join [projectDir; "package.json"])
    /\ (forall url dir, In (GitClone url dir) evs -> dir = projectDir)
    /\ (forall dir, In (GitInit dir) evs -> dir = projectDir)
    /\ (forall command cwd, In (ExecSync command cwd) evs ->
          command = "npm install"
          /\ (cwd = Some projectDir
              \/ cwd = Some (path.join [projectDir; "frontend"])
              \/ cwd = Some (path.join [projectDir; "backend"]))).
Proof.
  intros projectDir.
  destruct (materialize_footprint E opts req w) as [evs [Ht Hp]].
  exists evs. split; [exact Ht |].
  rewrite forallb_forall in Hp. fold projectDir in Hp.
  repeat split.
  - intros p Hin. apply Hp in Hin. now apply String.eqb_eq in Hin.
  - intros p text Hin. apply Hp in Hin. now apply String.eqb_eq in Hin.
  - intros url dir Hin. apply Hp in Hin. now apply String.eqb_eq in Hin.
  - intros dir Hin. apply Hp in Hin. now apply String.eqb_eq in Hin.
  - apply Hp in H. cbn in H. apply andb_true_iff in H as [H _].
    now apply String.eqb_eq in H.
  - apply Hp in H. cbn in H. apply andb_true_iff in H as [_ H].
    destruct cwd as [dir |]; [| discriminate].
    apply orb_true_iff in H as [H | H]; [apply orb_true_iff in H as [H | H] |];
      apply String.eqb_eq in H; subst; auto.
Qed.

(** ** The paths below the target *)

Lemma segments_no_slash (s : string) : no_slash s = true -> path.segments s = [s].
Proof.
  induction s as [| c r IH]; [reflexivity |].
  cbn [no_slash path.segments]. intros H. apply andb_true_iff in H as [Hc Hr].
  destruct (Ascii.eqb c "/"); [discriminate Hc |]. now rewrite (IH Hr).
Qed.

Lemma segments_are_slash_free (s : string) :
  Forall (fun seg => no_slash seg = true) (path.segments s).
Proof.
  induction s as [| c r IH]; [repeat constructor |].
  cbn [path.segments]. destruct (Ascii.eqb c "/") eqn:Hc.
  - constructor; [reflexivity | exact IH].
  - destruct (path.segments r) as [| seg rest].
    + repeat constructor. cbn. now rewrite Hc.
    + inversion IH as [| ? ? Hseg Hrest]; subst. constructor; [| exact Hrest].
      cbn. now rewrite Hc, Hseg.
Qed.

Lemma segments_concat (l : list string) :
  l <> [] -> Forall (fun seg => no_slash seg = true) l ->
  path.segments (String.concat "/" l) = l.
Proof.
  induction l as [| x l IH]; [congruence |]. intros _ Hall.
  inversion Hall as [| ? ? Hx Hl]; subst.
  destruct l as [| y l].
  - cbn. now apply segments_no_slash.
  - change (String.concat "/" (x :: y :: l))
      with (x +:+ "/" +:+ String.concat "/" (y :: l)).
    rewrite segments_slash, (segments_no_slash _ Hx), IH by (congruence || assumption).
    reflexivity.
Qed.

Lemma plain_parts (seg : string) :
  plain seg = true -> kept seg = true /\ seg <> ".." /\ no_slash seg = true.
Proof.
  unfold plain. intros H. apply andb_true_iff in H as [H Hs].
  apply andb_true_iff in H as [Hk Hd]. repeat split; [exact Hk | | exact Hs].
  intros ->. discriminate Hd.
Qed.

(** Normalising keeps only plain segments. *)
Lemma normalizeSegs_gives_plain (segs : list string) :
  Forall (fun seg => no_slash seg = true) segs ->
  forall res,
    Forall (fun seg => plain seg = true) res ->
    Forall (fun seg => plain seg = true) (path.normalizeSegs false res segs).
Proof.
  induction segs as [| seg rest IH]; intros Hall res Hres.
  - cbn. now apply List.Forall_rev.
  - inversion Hall as [| ? ? Hseg Hrest]; subst. cbn [path.normalizeSegs].
    destruct ((seg =? "") || (seg =? ".")) eqn:Hdrop; [now apply IH |].
    destruct (seg =? "..") eqn:Hup.
    + destruct res as [| last res']; [now apply IH |].
      inversion Hres as [| ? ? Hlast Hres']; subst.
      destruct (last =? ".."); now apply IH.
    + apply IH; [exact Hrest |]. constructor; [| exact Hres].
      unfold plain, kept. now rewrite Hdrop, Hup, Hseg.
Qed.

(** Plain segments are left as they are. *)
Lemma normalizeSegs_of_plain (l : list string) :
  Forall (fun seg => plain seg = true) l -> path.normalizeSegs false [] l = l.
Proof.
  intros Hall. rewrite normalizeSegs_plain.
  - cbn. induction Hall as [| seg l Hseg Hl IH]; [reflexivity |].
    cbn. destruct (plain_parts _ Hseg) as [-> _]. now rewrite IH.
  - intros Hin. rewrite List.Forall_forall in Hall. specialize (Hall _ Hin).
    discriminate Hall.
Qed.

Lemma endsWithSlash_append (a b : string) :
  nonempty b = true -> path.endsWithSlash (a +:+ b) = path.endsWithSlash b.
Proof.
  intros Hb. induction a as [| c a IH]; [reflexivity |].
  rewrite append_cons. cbn [path.endsWithSlash].
  destruct (a +:+ b) eqn:Heq; [| exact IH].
  exfalso. destruct a.
  - change (b = "") in Heq. subst b. discriminate Hb.
  - rewrite append_cons in Heq. discriminate Heq.
Qed.

Lemma endsWithSlash_no_slash (s : string) :
  no_slash s = true -> path.endsWithSlash s = false.
Proof.
  induction s as [| c r IH]; [reflexivity |].
  cbn [no_slash path.endsWithSlash]. intros H. apply andb_true_iff in H as [Hc Hr].
  destruct r; [now destruct (Ascii.eqb c "/") | now apply IH].
Qed.

Lemma concat_plain_nonempty (l : list string) :
  l <> [] -> Forall (fun seg => plain seg = true) l ->
  nonempty (String.concat "/" l) = true.
Proof.
  intros Hne Hall. destruct l as [| x l]; [congruence |].
  inversion Hall as [| ? ? Hx Hl]; subst.
  destruct (plain_parts _ Hx) as [Hk _].
  destruct x; [discriminate Hk |]. now destruct l.
Qed.

(** Joining a plain child onto a normalised absolute directory. *)
Lemma join_child (segs : list string) (child : string) :
  Forall (fun seg => plain seg = true) segs ->
  plain child = true ->
  path.join ["/" +:+ String.concat "/" segs; child]
  = "/" +:+ String.concat "/" (segs ++ [child]).
Proof.
  intros Hsegs Hchild.
  destruct (plain_parts _ Hchild) as [Hck [Hcu Hcs]].
  assert (Hcn : nonempty child = true) by (destruct child; [discriminate Hck | reflexivity]).
  assert (Hall : Forall (fun seg => plain seg = true) (segs ++ [child])).
  { apply List.Forall_app. split; [exact Hsegs | now repeat constructor]. }
  unfold path.join.
  rewrite filter_cons_True by reflexivity.
  rewrite filter_cons_True by exact Hcn.
  rewrite filter_nil.
  change (String.concat "/" ["/" +:+ String.concat "/" segs; child])
    with (("/" +:+ String.concat "/" segs) +:+ "/" +:+ child).
  unfold path.normalize.
  change (nonempty (("/" +:+ String.concat "/" segs) +:+ "/" +:+ child)) with true.
  cbn [negb].
  assert (Habs : path.isAbsolute (("/" +:+ String.concat "/" segs) +:+ "/" +:+ child) = true)
    by (rewrite append_assoc; apply prefix_slash).
  rewrite Habs. cbn [negb].
  rewrite endsWithSlash_append by (destruct child; [discriminate | reflexivity]).
  change (path.endsWithSlash ("/" +:+ child)) with (path.endsWithSlash (String "/" child)).
  assert (Hend : path.endsWithSlash (String "/" child) = false).
  { cbn [path.endsWithSlash]. destruct child; [discriminate Hcn |].
    now apply endsWithSlash_no_slash. }
  rewrite Hend.
  assert (Hq : path.normalizeString (("/" +:+ String.concat "/" segs) +:+ "/" +:+ child) false
               = String.concat "/" (segs ++ [child])).
  { unfold path.normalizeString. rewrite segments_slash.
    rewrite (segments_no_slash _ Hcs).
    change (path.segments ("/" +:+ String.concat "/" segs))
      with ("" :: path.segments (String.concat "/" segs)).
    destruct segs as [| s segs'].
    - change (String.concat "/" (path.normalizeSegs false [] [child])
              = String.concat "/" [child]).
      rewrite (normalizeSegs_of_plain [child]) by (now repeat constructor).
      reflexivity.
    - rewrite segments_concat.
      2: congruence.
      2:{ eapply List.Forall_impl; [| exact Hsegs]. intros seg Hp. now apply plain_parts in Hp. }
      change (String.concat "/" (path.normalizeSegs false [] ((s :: segs') ++ [child]))
              = String.concat "/" ((s :: segs') ++ [child])).
      now rewrite normalizeSegs_of_plain. }
  rewrite Hq.
  assert (Hne : segs ++ [child] <> []) by (destruct segs; discriminate).
  rewrite (concat_plain_nonempty _ Hne Hall).
  reflexivity.
Qed.

Lemma target_shape E name :
  path.isAbsolute (process_cwd E) = true ->
  exists segs,
    Forall (fun seg => plain seg = true) segs
    /\ projectDir_of E name = "/" +:+ String.concat "/" segs.
Proof.
  intros Habs. unfold projectDir_of.
  destruct (resolve_shape _ name Habs) as [joined ->].
  eexists. split; [| reflexivity].
  apply normalizeSegs_gives_plain; [apply segments_are_slash_free | constructor].
Qed.

Lemma child_of_target E name child :
  path.isAbsolute (process_cwd E) = true ->
  plain child = true ->
  path.join [projectDir_of E name; child]
  = (if projectDir_of E name =? "/" then "/" +:+ child
     else projectDir_of E name +:+ "/" +:+ child).
Proof.
  intros Habs Hchild. destruct (target_shape E name Habs) as [segs [Hsegs ->]].
  rewrite (join_child _ _ Hsegs Hchild).
  destruct segs as [| s segs']; [reflexivity |].
  assert (Hne : nonempty (String.concat "/" (s :: segs')) = true)
    by (apply concat_plain_nonempty; [congruence | exact Hsegs]).
  rewrite concat_app by congruence.
  change (String.concat "/" [child]) with child.
  destruct (String.concat "/" (s :: segs')) as [| c r] eqn:Hc; [discriminate Hne |].
  change (("/" +:+ String c r) =? "/") with false. cbv iota.
  now rewrite append_assoc.
Qed.

Lemma child_below_target E name child :
  path.isAbsolute (process_cwd E) = true ->
  plain child = true ->
  path.lies_under (projectDir_of E name) (path.join [projectDir_of E name; child]) = true.
Proof.
  intros Habs Hchild. rewrite (child_of_target E name child Habs Hchild).
  unfold path.lies_under. apply orb_true_iff. right.
  destruct (projectDir_of E name =? "/").
  - apply prefix_slash.
  - rewrite <- append_assoc. apply prefix_append.
Qed.

Lemma target_below_itself dir : path.lies_under dir dir = true.
Proof. unfold path.lies_under. now rewrite String.eqb_refl. Qed.

(** X21: the manifest, the [.git], the [frontend] and the [backend] of
    the target are the target's path followed by a slash and the name (no
    second slash for the root), so that every path the materializer removes,
    writes, clones into, initialises or installs in is the target directory
    or lies below it. *)
Theorem materializer_works_below_target (E : Env) (opts : options) (req : request)
    (w : world) :
  let projectDir := projectDir_of E (projectName req) in
  path.isAbsolute (process_cwd E) = true ->
  (forall child, In child [".git"; "package.json"; "frontend"; "backend"] ->
     path.join [projectDir; child]
     = (if projectDir =? "/" then "/" +:+ child else projectDir +:+ "/" +:+ child))
  /\ exists evs,
       trace (materialize E opts req w).2 = trace w ++ evs
       /\ forall p,
            (In (RemoveSync p) evs
             \/ (exists text, In (WriteFile p text) evs)
             \/ (exists url, In (GitClone url p) evs)
             \/ In (GitInit p) evs
             \/ (exists command, In (ExecSync command (Some p)) evs)) ->
            path.lies_under projectDir p = true.
Proof.
  intros projectDir Habs. split.
  - intros child Hin. apply child_of_target; [exact Habs |].
    cbn in Hin. destruct Hin as [<- | [<- | [<- | [<- | []]]]]; reflexivity.
  - destruct (materialize_footprint E opts req w) as [evs [Ht Hp]].
    exists evs. split; [exact Ht |].
    rewrite forallb_forall in Hp. fold projectDir in Hp.
    intros p [Hin | [[text Hin] | [[url Hin] | [Hin | [command Hin]]]]];
      apply Hp in Hin; cbn [in_footprint] in Hin.
    + apply String.eqb_eq in Hin as ->. now apply child_below_target.
    + apply String.eqb_eq in Hin as ->. now apply child_below_target.
    + apply String.eqb_eq in Hin as ->. apply target_below_itself.
    + apply String.eqb_eq in Hin as ->. apply target_below_itself.
    + apply andb_true_iff in Hin as [_ Hin].
      apply orb_true_iff in Hin as [Hin | Hin]; [apply orb_true_iff in Hin as [Hin | Hin] |];
        apply String.eqb_eq in Hin as ->;
        [apply target_below_itself | now apply child_below_target
        | now apply child_below_target].
Qed.

Lemma materializer_below_target_witness :
  (forall child, In child [".git"; "package.json"; "frontend"; "backend"] ->
     path.join [projectDir_of (Demo.answering Demo.manifest_text) "../x"; child]
     = (if projectDir_of (Demo.answering Demo.manifest_text) "../x" =? "/"
        then "/" +:+ child
        else projectDir_of (Demo.answering Demo.manifest_text) "../x" +:+ "/" +:+ child))
  /\ exists evs,
       trace (materialize (Demo.answering Demo.manifest_text) (mkOptions false true false)
                (mkRequest Demo.meter "../x" "bar") Demo.start).2 = trace Demo.start ++ evs
       /\ forall p,
            (In (RemoveSync p) evs
             \/ (exists text, In (WriteFile p text) evs)
             \/ (exists url, In (GitClone url p) evs)
             \/ In (GitInit p) evs
             \/ (exists command, In (ExecSync command (Some p)) evs)) ->
            path.lies_under (projectDir_of (Demo.answering Demo.manifest_text) "../x") p = true.
Proof.
  apply (materializer_works_below_target (Demo.answering Demo.manifest_text)
           (mkOptions false true false) (mkRequest Demo.meter "../x" "bar") Demo.start).
  reflexivity.
Defined.

(** ** The history strip and the repository initialisation *)

Lemma remove_tree_lookup (p : string) (f : gmap string node) (k : string) :
  remove_tree p f !! k = if path.lies_under p k then None else f !! k.
Proof.
  unfold remove_tree. destruct (path.lies_under p k) eqn:Hk.
  - apply map_lookup_filter_None. right. intros x _. cbn. congruence.
  - destruct (f !! k) as [x |] eqn:Hf.
    + apply map_lookup_filter_Some. split; [exact Hf | exact Hk].
    + apply map_lookup_filter_None. left. exact Hf.
Qed.

Lemma materialize_until_customize E opts req w cloned :
  let projectDir := projectDir_of E (projectName req) in
  let gitDir := path.join [projectDir; ".git"] in
  let url := Obj.get templates (template req) in
  fs w !! projectDir = None ->
  run_clone E url projectDir (fs w) = {| after := cloned; failure := None |} ->
  cloned !! path.join [projectDir; "package.json"] = None ->
  exists w1 k,
    materialize E opts req w = k w1
    /\ k = (fun w1 =>
              ((if negb (skipInstall opts) then installDependencies E projectDir else ret tt);;
               (if gitInit opts then
                  console_log "Initializing new git repository...";;
                  try_catch
                    (git_init E projectDir)
                    (fun error =>
                       console_error ("Error initializing git repository: "
                                        +:+ message error);;
                       process_exit 1)
                else ret tt);;
               console_log "✅ All done! Start coding with:";;
               console_log ("cd " +:+ projectName req);;
               console_log "npm start") w1)
    /\ fs w1 = match cloned !! gitDir with
               | Some _ => remove_tree gitDir cloned
               | None => cloned
               end
    /\ trace w1 = trace w ++
         [Console Log ("Cloning repository from " +:+ show url +:+ "...");
          GitClone url projectDir;
          Console Log ("Repository cloned to " +:+ projectDir)]
         ++ match cloned !! gitDir with
            | Some _ => [RemoveSync gitDir]
            | None => []
            end.
Proof.
  intros projectDir gitDir url Hfree Hclone Hnone.
  assert (Hstripped : match cloned !! gitDir with
                      | Some _ => remove_tree gitDir cloned
                      | None => cloned
                      end !! path.join [projectDir; "package.json"] = None).
  { destruct (cloned !! gitDir); [| exact Hnone].
    rewrite remove_tree_lookup, Hnone. now destruct (path.lies_under _ _). }
  unfold materialize. fold projectDir gitDir url.
  unfold bind at 1, existsSync at 1. rewrite Hfree.
  unfold bind at 1, ret at 1.
  rewrite (bind_Return _ _ _ _ _ (cloneTemplate_ok E url projectDir w cloned Hclone)).
  unfold bind at 1, existsSync at 1. cbn [fs set_fs add_event].
  destruct (cloned !! gitDir) as [n |].
  - unfold bind at 1, removeSync. cbn [fs set_fs add_event].
    eexists. eexists. split; [| split; [reflexivity | split]].
    + unfold bind at 1, customize, customizePackageJson.
      unfold bind at 1, existsSync at 1. cbn [fs set_fs add_event].
      fold projectDir. rewrite Hstripped. reflexivity.
    + reflexivity.
    + cbn [trace set_fs add_event]. rewrite <- !app_assoc. reflexivity.
  - unfold bind at 1, ret at 1.
    eexists. eexists. split; [| split; [reflexivity | split]].
    + unfold bind at 1, customize, customizePackageJson.
      unfold bind at 1, existsSync at 1. cbn [fs set_fs add_event].
      fold projectDir. rewrite Hstripped. reflexivity.
    + reflexivity.
    + cbn [trace set_fs add_event]. rewrite <- !app_assoc. reflexivity.
Qed.

(** X22: a clone without a manifest, install skipped, no init: the run
    returns; the target's [.git] is gone; when there was one, nothing is
    left below it; and every path outside it is as the clone left it. *)
Theorem inherited_history_is_stripped (E : Env) (opts : options) (req : request)
    (w : world) (cloned : gmap string node) :
  let projectDir := projectDir_of E (projectName req) in
  let gitDir := path.join [projectDir; ".git"] in
  skipInstall opts = true ->
  gitInit opts = false ->
  fs w !! projectDir = None ->
  run_clone E (Obj.get templates (template req)) projectDir (fs w)
    = {| after := cloned; failure := None |} ->
  cloned !! path.join [projectDir; "package.json"] = None ->
  exists w',
    materialize E opts req w = (Return tt, w')
    /\ fs w' !! gitDir = None
    /\ (is_Some (cloned !! gitDir) ->
        forall k, path.lies_under gitDir k = true -> fs w' !! k = None)
    /\ (forall k, path.lies_under gitDir k = false -> fs w' !! k = cloned !! k).
Proof.
  intros projectDir gitDir Hskip Hinit Hfree Hclone Hnone.
  destruct (materialize_until_customize E opts req w cloned Hfree Hclone Hnone)
    as [w1 [k [Hm [Hk [Hfs _]]]]].
  fold projectDir gitDir in Hk, Hfs.
  eexists. split; [| split; [| split]].
  - rewrite Hm, Hk, Hskip, Hinit. reflexivity.
  - cbn [fs add_event]. rewrite Hfs.
    destruct (cloned !! gitDir) eqn:Hgit; [| exact Hgit].
    rewrite remove_tree_lookup. now rewrite target_below_itself.
  - intros [n Hn] key Hunder. cbn [fs add_event]. rewrite Hfs, Hn.
    rewrite remove_tree_lookup. now rewrite Hunder.
  - intros key Hout. cbn [fs add_event]. rewrite Hfs.
    destruct (cloned !! gitDir); [| reflexivity].
    rewrite remove_tree_lookup. now rewrite Hout.
Qed.

Lemma inherited_history_witness :
  exists w',
    materialize (Broken.bare false []) (mkOptions true false false)
      (mkRequest Demo.meter "foo" "bar") Demo.start = (Return tt, w')
    /\ fs w' !! "/home/dev/foo/.git" = None
    /\ (is_Some (Broken.bare_tree "/home/dev/foo" Demo.disk !! "/home/dev/foo/.git") ->
        forall k, path.lies_under "/home/dev/foo/.git" k = true -> fs w' !! k = None)
    /\ (forall k, path.lies_under "/home/dev/foo/.git" k = false ->
        fs w' !! k = Broken.bare_tree "/home/dev/foo" Demo.disk !! k).
Proof.
  apply (inherited_history_is_stripped (Broken.bare false []) (mkOptions true false false)
           (mkRequest Demo.meter "foo" "bar") Demo.start
           (Broken.bare_tree "/home/dev/foo" Demo.disk)); reflexivity.
Defined.

(** Two computations with the same head: what holds of their tails
    whenever the first tail returns holds of the wholes. *)
Lemma bind_same_head {A B} (m : M A) (k1 k2 : A -> M B)
    (Q : world -> outcome B * world -> Prop) (w : world) :
  (forall a w1 w0 b, k1 a w1 = (Return b, w0) -> Q w0 (k2 a w1)) ->
  forall w0 b, bind m k1 w = (Return b, w0) -> Q w0 (bind m k2 w).
Proof.
  intros Hk w0 b. unfold bind.
  destruct (m w) as [[a | code | e] w1]; [apply Hk | discriminate | discriminate].
Qed.

(** X23: take a run of the materializer that returns without
    [--git-init], leaving the world [w0].  The same run with [--git-init],
    the initialisation failing on that filesystem, goes through the same
    steps, then prints the error of the git client in place of the
    completion summary and exits with 1; nothing is undone: the filesystem
    is the one the earlier steps built, as the failed init left it. *)
Theorem init_failure_is_fatal (E : Env) (opts : options) (req : request)
    (w w0 : world) (f : gmap string node) (err : error) :
  let projectDir := projectDir_of E (projectName req) in
  gitInit opts = true ->
  materialize E {| skipInstall := skipInstall opts; gitInit := false; yes := yes opts |} req w
    = (Return tt, w0) ->
  run_init E projectDir (fs w0) = {| after := f; failure := Some err |} ->
  exists w' before,
    materialize E opts req w = (Exit 1, w')
    /\ fs w' = f
    /\ trace w0 = before ++
         [Console Log "✅ All done! Start coding with:";
          Console Log ("cd " +:+ projectName req);
          Console Log "npm start"]
    /\ trace w' = before ++
         [Console Log "Initializing new git repository...";
          GitInit projectDir;
          Console Err ("Error initializing git repository: " +:+ message err)].
Proof.
  intros projectDir Hinit Hquiet.
  set (Q := fun (w0 : world) (o : outcome unit * world) =>
              run_init E projectDir (fs w0) = {| after := f; failure := Some err |} ->
              exists w' before,
                o = (Exit 1, w')
                /\ fs w' = f
                /\ trace w0 = before ++
                     [Console Log "✅ All done! Start coding with:";
                      Console Log ("cd " +:+ projectName req);
                      Console Log "npm start"]
                /\ trace w' = before ++
                     [Console Log "Initializing new git repository...";
                      GitInit projectDir;
                      Console Err ("Error initializing git repository: " +:+ message err)]).
  change (Q w0 (materialize E opts req w)).
  revert Hquiet. generalize tt. intros b. revert b. revert w0.
  unfold materialize. cbn [skipInstall gitInit]. rewrite Hinit. fold projectDir.
  do 7 (apply bind_same_head; intros ? ?).
  intros wlast blast Hlast. unfold Q. intros Hfail.
  match type of Hlast with _ ?wx = _ => exists (add_event
      (Console Err ("Error initializing git repository: " +:+ message err))
      (set_fs f (add_event (GitInit projectDir)
         (add_event (Console Log "Initializing new git repository...") wx)))),
      (trace wx) end.
  cbv [bind ret console_log emit] in Hlast.
  injection Hlast as _ Hw0. subst wlast. cbn [fs add_event] in Hfail.
  split; [| split; [| split]].
  - apply bind_Exit.
    unfold bind at 1, console_log at 1, emit.
    erewrite try_catch_Throw.
    2:{ unfold git_init. apply external_fail. exact Hfail. }
    reflexivity.
  - reflexivity.
  - cbn [trace add_event]. rewrite <- !app_assoc. reflexivity.
  - cbn [trace set_fs add_event]. rewrite <- !app_assoc. reflexivity.
Qed.

Lemma init_failure_witness :
  exists w' before,
    materialize (Broken.env (fun _ _ => false) false true Demo.manifest_text [])
      (mkOptions false true false) (mkRequest Demo.meter "foo" "bar") Demo.start = (Exit 1, w')
    /\ fs w' = fs (materialize (Broken.env (fun _ _ => false) false true Demo.manifest_text [])
                     (mkOptions false false false) (mkRequest Demo.meter "foo" "bar")
                     Demo.start).2
    /\ trace (materialize (Broken.env (fun _ _ => false) false true Demo.manifest_text [])
                (mkOptions false false false) (mkRequest Demo.meter "foo" "bar")
                Demo.start).2 = before ++
         [Console Log "✅ All done! Start coding with:";
          Console Log ("cd " +:+ "foo");
          Console Log "npm start"]
    /\ trace w' = before ++
         [Console Log "Initializing new git repository...";
          GitInit "/home/dev/foo";
          Console Err "Error initializing git repository: fatal: cannot initialise"].
Proof.
  apply (init_failure_is_fatal (Broken.env (fun _ _ => false) false true Demo.manifest_text [])
           (mkOptions false true false) (mkRequest Demo.meter "foo" "bar") Demo.start
           (materialize (Broken.env (fun _ _ => false) false true Demo.manifest_text [])
              (mkOptions false false false) (mkRequest Demo.meter "foo" "bar")
              Demo.start).2
           (fs (materialize (Broken.env (fun _ _ => false) false true Demo.manifest_text [])
                  (mkOptions false false false) (mkRequest Demo.meter "foo" "bar")
                  Demo.start).2)
           (Error "fatal: cannot initialise"));
    vm_compute; reflexivity.
Defined.
